(** * Central heating demand: the aggregation and heater dispatch logic

    A shallow embedding of [custom_components/central_heating_demand]:
    - [binary_sensor.py], class [CentralHeatingDemandBinarySensor]:
      [_async_update_heating_demand] and [_async_control_heater];
    - [sensor.py], class [CentralHeatingDemandSensor]:
      [_async_update_heating_demand] and the [state] property.

    Temperatures are Python numbers; they are modelled as rationals [Q] with
    exact subtraction and the usual order, Python's [!=] on them being the
    negation of [Qeq_bool].  The host state machine [hass.states] is a finite
    map from entity ids to states.  Of a state's attribute mapping only the
    four keys the code reads are kept; a key that is absent and a key bound
    to [None] are the same thing for the code ([attributes.get] followed by
    an [is None] test or an [==] against a string), both are [None] here. *)

From Stdlib Require Import QArith ZArith String List Bool Lia.
From stdpp Require Import gmap strings.
Import ListNotations.

Local Open Scope string_scope.

(** ** Python idioms *)

(** [a > b] on numbers. *)
Definition Qgt_bool (a b : Q) : bool := negb (Qle_bool a b).

(** [max(a, b)] of the Python builtins: the first argument is kept unless a
    later one is strictly greater. *)
Definition py_max (a b : Q) : Q := if Qgt_bool b a then b else a.

(** Truth value of a [str | None]: [None] and the empty string are falsy. *)
Definition truthy (o : option string) : bool :=
  match o with
  | Some s => negb (String.eqb s "")
  | None => false
  end.

(** [x == s] for [x : str | None] and a string literal [s]. *)
Definition opt_str_eqb (x : option string) (s : string) : bool :=
  match x with
  | Some v => String.eqb v s
  | None => false
  end.

(** [last != t] for [last : float | None]. *)
Definition opt_num_neb (last : option Q) (t : Q) : bool :=
  match last with
  | Some v => negb (Qeq_bool v t)
  | None => true
  end.

(** [last != s] for [last : str | None]. *)
Definition opt_str_neb (last : option string) (s : string) : bool :=
  negb (opt_str_eqb last s).

(** [a != b] for two values of type [float | None]. *)
Definition opt_num_ne (a b : option Q) : bool :=
  match a, b with
  | Some x, Some y => negb (Qeq_bool x y)
  | None, None => false
  | _, _ => true
  end.

(** [a != b] for two values of type [str | None]. *)
Definition opt_str_ne (a b : option string) : bool :=
  match a, b with
  | Some x, Some y => negb (String.eqb x y)
  | None, None => false
  | _, _ => true
  end.

(** The Python values that the configuration helper tells apart: strings,
    lists, and everything else. *)
#[warnings="-register-all"] Inductive PyValue :=
| PStr (s : string)
| PList (items : list PyValue)
| POther.

(** What [json.loads(s)] does on a string: it returns a value, raises
    [JSONDecodeError], or raises something else (a [RecursionError] on deeply
    nested input). *)
Inductive Loads :=
| Parsed (v : PyValue)
| JSONDecodeError
| OtherError.

(** How a call of the configuration helper ends: it returns a list, raises
    [vol.Invalid] with a message, or lets an exception of [json.loads]
    through. *)
Inductive Validated :=
| Valid (items : list PyValue)
| Invalid (msg : string)
| Uncaught.

(** ** The host platform *)

Module core.

(** [homeassistant.core.State], restricted to what the integration reads:
    [state.state] and [state.attributes.get(k)] for the keys [hvac_action],
    [current_temperature], [temperature] and [friendly_name]. *)
Record State := mkState {
  state : string;
  hvac_action : option string;
  current_temperature : option Q;
  temperature : option Q;
  friendly_name : option string
}.

(** [hass.states]: [states !! entity_id] is [hass.states.get(entity_id)]. *)
Abbreviation States := (gmap string State).

(** A call [hass.services.async_call("climate", service, payload)]. *)
Inductive ServiceCall :=
| set_temperature (entity_id : option string) (temp : Q)
| set_hvac_mode (entity_id : option string) (hvac_mode : string).

(** What a service call does: it returns, or it raises. *)
Inductive Outcome := Returned | Raised.

(** The service registry as the dispatcher sees it. *)
Abbreviation Services := (ServiceCall -> Outcome).

(** The data of a state change event: [event.data.get("old_state")] and
    [event.data.get("new_state")]. *)
Record Event := mkEvent {
  old_state : option State;
  new_state : option State
}.

End core.
Import core.

(** ** binary_sensor.py *)

Module binary_sensor.

(** The instance attributes of [CentralHeatingDemandBinarySensor]. *)
Record BinarySensor := mkBinarySensor {
  _trv_climate_entities : list string;
  _heater_entity_id : option string;
  _minimum_temperature : Q;
  _away_temp : Q;
  _zone_entity_id : option string;
  _is_heating_demanded : bool;
  _max_demand_delta : Q;
  _max_demand_current_temperature : option Q;
  _max_demand_target_temperature : option Q;
  _max_demand_trv_entity_id : option string;
  _last_sent_target_temperature : option Q;
  _last_sent_hvac_mode : option string;
  _max_demand_trv_name : option string;
  _is_away : bool
}.

(** [__init__]. *)
Definition init (trv_climate_entities : list string)
  (heater_entity_id : option string) (minimum_temperature away_temp : Q)
  (zone_entity_id : option string) : BinarySensor :=
  {| _trv_climate_entities := trv_climate_entities;
     _heater_entity_id := heater_entity_id;
     _minimum_temperature := minimum_temperature;
     _away_temp := away_temp;
     _zone_entity_id := zone_entity_id;
     _is_heating_demanded := false;
     _max_demand_delta := 0;
     _max_demand_current_temperature := None;
     _max_demand_target_temperature := None;
     _max_demand_trv_entity_id := None;
     _last_sent_target_temperature := None;
     _last_sent_hvac_mode := None;
     _max_demand_trv_name := None;
     _is_away := false |}.

(** The local variables of [_async_update_heating_demand] that the loop over
    the TRVs reads and writes. *)
Record Locals := mkLocals {
  demanding_trvs : Z;
  max_delta : Q;
  leader_entity_id : option string;
  leader_current_temp : option Q;
  leader_target_temp : option Q;
  leader_friendly_name : option string;
  valid_trv_found : bool
}.

(** Lines 187-196: the locals before the loop. *)
Definition locals0 : Locals :=
  {| demanding_trvs := 0;
     max_delta := -100;
     leader_entity_id := None;
     leader_current_temp := None;
     leader_target_temp := None;
     leader_friendly_name := None;
     valid_trv_found := false |}.

(** Lines 198-203: the away flag. *)
Definition check_away (states : States) (zone_entity_id : option string) : bool :=
  if truthy zone_entity_id then
    match zone_entity_id with
    | Some z =>
        match states !! z with
        | Some zone_state => String.eqb (state zone_state) "0"
        | None => false
        end
    | None => false
    end
  else false.

(** Lines 227-229. *)
Definition effective_target_temperature (is_away : bool) (away_temp : Q)
  (target_temperature : Q) : Q :=
  if is_away then away_temp else target_temperature.

(** Lines 207-250: one iteration of the loop, for [entity_id]. *)
Definition trv_step (states : States) (is_away : bool) (away_temp : Q)
  (l : Locals) (entity_id : string) : Locals :=
  match states !! entity_id with
  | None => l
  | Some st =>
      match current_temperature st, temperature st with
      | Some cur, Some tgt =>
          let delta := (effective_target_temperature is_away away_temp tgt - cur)%Q in
          let is_demanding :=
            opt_str_eqb (hvac_action st) "heating"
            || (String.eqb (state st) "heat" && Qgt_bool delta 0) in
          let demanding_trvs' :=
            if is_demanding then (demanding_trvs l + 1)%Z else demanding_trvs l in
          if Qgt_bool delta (max_delta l) then
            {| demanding_trvs := demanding_trvs';
               max_delta := delta;
               leader_entity_id := Some entity_id;
               leader_current_temp := Some cur;
               leader_target_temp := Some tgt;
               leader_friendly_name := friendly_name st;
               valid_trv_found := true |}
          else
            {| demanding_trvs := demanding_trvs';
               max_delta := max_delta l;
               leader_entity_id := leader_entity_id l;
               leader_current_temp := leader_current_temp l;
               leader_target_temp := leader_target_temp l;
               leader_friendly_name := leader_friendly_name l;
               valid_trv_found := true |}
      | _, _ => l
      end
  end.

(** Lines 206-250: the loop. *)
Definition trv_loop (states : States) (is_away : bool) (away_temp : Q)
  (trvs : list string) (l : Locals) : Locals :=
  fold_left (trv_step states is_away away_temp) trvs l.

(** Lines 269-281: the arguments of the [_async_control_heater] task that is
    created, if any. *)
Definition heater_task (self : BinarySensor) : option (Q * string) :=
  if truthy (_heater_entity_id self) then
    if _is_heating_demanded self then
      match _max_demand_target_temperature self with
      | Some t => Some (t, "heat")
      | None => Some (_minimum_temperature self, "heat")
      end
    else Some (_minimum_temperature self, "off")
  else None.

(** Lines 185-267: [_async_update_heating_demand] up to the heater control;
    the new instance attributes. *)
Definition update_attributes (states : States) (self : BinarySensor) : BinarySensor :=
  let is_away := check_away states (_zone_entity_id self) in
  let l := trv_loop states is_away (_away_temp self) (_trv_climate_entities self) locals0 in
  let found := valid_trv_found l && truthy (leader_entity_id l) in
  {| _trv_climate_entities := _trv_climate_entities self;
     _heater_entity_id := _heater_entity_id self;
     _minimum_temperature := _minimum_temperature self;
     _away_temp := _away_temp self;
     _zone_entity_id := _zone_entity_id self;
     _is_heating_demanded := (0 <? demanding_trvs l)%Z;
     _max_demand_delta := if found then py_max 0 (max_delta l) else 0;
     _max_demand_current_temperature := if found then leader_current_temp l else None;
     _max_demand_target_temperature := if found then leader_target_temp l else None;
     _max_demand_trv_entity_id := if found then leader_entity_id l else None;
     _last_sent_target_temperature := _last_sent_target_temperature self;
     _last_sent_hvac_mode := _last_sent_hvac_mode self;
     _max_demand_trv_name := if found then leader_friendly_name l else None;
     _is_away := is_away |}.

(** [_async_update_heating_demand]: the updated sensor and the task handed
    to [hass.async_create_task]. *)
Definition _async_update_heating_demand (states : States) (self : BinarySensor)
  : BinarySensor * option (Q * string) :=
  let self' := update_attributes states self in
  (self', heater_task self').

(** Assignments to the two debounce attributes. *)
Definition set_last_sent_target_temperature (self : BinarySensor) (t : Q)
  : BinarySensor :=
  {| _trv_climate_entities := _trv_climate_entities self;
     _heater_entity_id := _heater_entity_id self;
     _minimum_temperature := _minimum_temperature self;
     _away_temp := _away_temp self;
     _zone_entity_id := _zone_entity_id self;
     _is_heating_demanded := _is_heating_demanded self;
     _max_demand_delta := _max_demand_delta self;
     _max_demand_current_temperature := _max_demand_current_temperature self;
     _max_demand_target_temperature := _max_demand_target_temperature self;
     _max_demand_trv_entity_id := _max_demand_trv_entity_id self;
     _last_sent_target_temperature := Some t;
     _last_sent_hvac_mode := _last_sent_hvac_mode self;
     _max_demand_trv_name := _max_demand_trv_name self;
     _is_away := _is_away self |}.

Definition set_last_sent_hvac_mode (self : BinarySensor) (m : string)
  : BinarySensor :=
  {| _trv_climate_entities := _trv_climate_entities self;
     _heater_entity_id := _heater_entity_id self;
     _minimum_temperature := _minimum_temperature self;
     _away_temp := _away_temp self;
     _zone_entity_id := _zone_entity_id self;
     _is_heating_demanded := _is_heating_demanded self;
     _max_demand_delta := _max_demand_delta self;
     _max_demand_current_temperature := _max_demand_current_temperature self;
     _max_demand_target_temperature := _max_demand_target_temperature self;
     _max_demand_trv_entity_id := _max_demand_trv_entity_id self;
     _last_sent_target_temperature := _last_sent_target_temperature self;
     _last_sent_hvac_mode := Some m;
     _max_demand_trv_name := _max_demand_trv_name self;
     _is_away := _is_away self |}.

(** Lines 286-303: the temperature half of [_async_control_heater].  The
    result is the sensor afterwards and the outbound calls made, a call that
    raised included. *)
Definition control_temperature (services : Services) (self : BinarySensor)
  (target_temp : Q) : BinarySensor * list ServiceCall :=
  if opt_num_neb (_last_sent_target_temperature self) target_temp then
    let c := set_temperature (_heater_entity_id self) target_temp in
    match services c with
    | Returned => (set_last_sent_target_temperature self target_temp, [c])
    | Raised => (self, [c])
    end
  else (self, []).

(** Lines 305-323: the mode half. *)
Definition control_hvac_mode (services : Services) (self : BinarySensor)
  (target_hvac_mode : string) : BinarySensor * list ServiceCall :=
  if opt_str_neb (_last_sent_hvac_mode self) target_hvac_mode then
    let c := set_hvac_mode (_heater_entity_id self) target_hvac_mode in
    match services c with
    | Returned => (set_last_sent_hvac_mode self target_hvac_mode, [c])
    | Raised => (self, [c])
    end
  else (self, []).

(** [_async_control_heater]: temperature first, then mode. *)
Definition _async_control_heater (services : Services) (self : BinarySensor)
  (target_temp : Q) (target_hvac_mode : string)
  : BinarySensor * list ServiceCall :=
  let '(self1, calls1) := control_temperature services self target_temp in
  let '(self2, calls2) := control_hvac_mode services self1 target_hvac_mode in
  (self2, (calls1 ++ calls2)%list).

(** Lines 31-47: the function returned by [EnsureSquareBracketedString].
    [json_loads] is [json.loads] on strings; only its [JSONDecodeError] is
    caught. *)
Definition validate (json_loads : string -> Loads) (value : PyValue) : Validated :=
  match value with
  | PStr s =>
      match json_loads s with
      | Parsed (PList parsed_value) => Valid parsed_value
      | Parsed _ => Valid [value]
      | JSONDecodeError => Valid [value]
      | OtherError => Uncaught
      end
  | PList items => Valid items
  | POther => Invalid "Expected a string or a list of strings"
  end.

(** Lines 169-174: the three attribute comparisons of the TRV listener. *)
Definition attributes_changed (old new : State) : bool :=
  opt_str_ne (hvac_action old) (hvac_action new)
  || opt_num_ne (current_temperature old) (current_temperature new)
  || opt_num_ne (temperature old) (temperature new).

(** Lines 146-156: [_async_update_on_start] and [_async_zone_state_listener]
    recompute and write the state; the boolean tells whether
    [async_write_ha_state] was called. *)
Definition _async_update_on_start (states : States) (self : BinarySensor)
  : BinarySensor * option (Q * string) * bool :=
  (_async_update_heating_demand states self, true).

Definition _async_zone_state_listener (states : States) (self : BinarySensor)
  : BinarySensor * option (Q * string) * bool :=
  (_async_update_heating_demand states self, true).

(** Lines 158-181: [_async_trv_state_listener]. *)
Definition _async_trv_state_listener (states : States) (event : Event)
  (self : BinarySensor) : BinarySensor * option (Q * string) * bool :=
  match old_state event, new_state event with
  | Some old, Some new =>
      if attributes_changed old new
      then (_async_update_heating_demand states self, true)
      else (self, None, false)
  | None, Some _ => (_async_update_heating_demand states self, true)
  | _, None => (self, None, false)
  end.

(** A recompute followed by the run of the task it created: the sensor
    afterwards and the outbound calls made. *)
Definition update_and_control (services : Services) (states : States)
  (self : BinarySensor) : BinarySensor * list ServiceCall :=
  match _async_update_heating_demand states self with
  | (self', Some (target_to_set, target_hvac_mode)) =>
      _async_control_heater services self' target_to_set target_hvac_mode
  | (self', None) => (self', [])
  end.

(** [is_on]. *)
Definition is_on (self : BinarySensor) : bool := _is_heating_demanded self.

End binary_sensor.

(** ** sensor.py *)

Module sensor.

(** The instance attributes of [CentralHeatingDemandSensor]. *)
Record Sensor := mkSensor {
  _trv_climate_entities : list string;
  _is_heating_demanded : bool
}.

(** [__init__]. *)
Definition init (trv_climate_entities : list string) : Sensor :=
  {| _trv_climate_entities := trv_climate_entities;
     _is_heating_demanded := false |}.

(** Lines 124-129: the condition copied from the template sensor. *)
Definition demands (st : State) : bool :=
  opt_str_eqb (hvac_action st) "heating"
  || (String.eqb (core.state st) "heat"
      && match current_temperature st, temperature st with
         | Some cur, Some tgt => Qgt_bool tgt cur
         | _, _ => false
         end).

(** Lines 112-132: the loop with its [continue] and its [break]; the result
    is [demanding_trvs] when the loop is left. *)
Fixpoint trv_loop (states : States) (trvs : list string) (demanding_trvs : Z) : Z :=
  match trvs with
  | [] => demanding_trvs
  | entity_id :: rest =>
      match states !! entity_id with
      | None => trv_loop states rest demanding_trvs
      | Some st =>
          if demands st then (demanding_trvs + 1)%Z
          else trv_loop states rest demanding_trvs
      end
  end.

(** [_async_update_heating_demand]. *)
Definition _async_update_heating_demand (states : States) (self : Sensor) : Sensor :=
  {| _trv_climate_entities := _trv_climate_entities self;
     _is_heating_demanded :=
       (0 <? trv_loop states (_trv_climate_entities self) 0)%Z |}.

(** The [state] property. *)
Definition state (self : Sensor) : string :=
  if _is_heating_demanded self then "on" else "off".

(** The same scan without the [break]: every configured TRV is visited and
    every demanding one is counted. *)
Fixpoint full_scan (states : States) (trvs : list string) (demanding_trvs : Z) : Z :=
  match trvs with
  | [] => demanding_trvs
  | entity_id :: rest =>
      match states !! entity_id with
      | None => full_scan states rest demanding_trvs
      | Some st =>
          full_scan states rest
            (if demands st then (demanding_trvs + 1)%Z else demanding_trvs)
      end
  end.

(** Lines 93-98: the three attribute comparisons of the TRV listener. *)
Definition attributes_changed (old new : State) : bool :=
  opt_str_ne (hvac_action old) (hvac_action new)
  || opt_num_ne (current_temperature old) (current_temperature new)
  || opt_num_ne (temperature old) (temperature new).

(** Lines 82-105: [_async_trv_state_listener]; the boolean tells whether
    [async_write_ha_state] was called. *)
Definition _async_trv_state_listener (states : States) (event : Event)
  (self : Sensor) : Sensor * bool :=
  match old_state event, new_state event with
  | Some old, Some new =>
      if attributes_changed old new
      then (_async_update_heating_demand states self, true)
      else (self, false)
  | None, Some _ => (_async_update_heating_demand states self, true)
  | _, None => (self, false)
  end.

End sensor.

(** ** Vocabulary of the statements *)

(** The delta that the binary sensor's loop computes for [entity_id]: none
    when the entity has no state or lacks one of the two temperatures. *)
Definition delta_at (states : States) (is_away : bool) (away_temp : Q)
  (entity_id : string) : option Q :=
  match states !! entity_id with
  | Some st =>
      match current_temperature st, temperature st with
      | Some cur, Some tgt =>
          Some (binary_sensor.effective_target_temperature is_away away_temp tgt - cur)%Q
      | _, _ => None
      end
  | None => None
  end.

(** A state whose setpoint, when it has one, is replaced by [t]. *)
Definition with_setpoint (t : Q) (st : State) : State :=
  {| state := state st;
     hvac_action := hvac_action st;
     current_temperature := current_temperature st;
     temperature := match temperature st with Some _ => Some t | None => None end;
     friendly_name := friendly_name st |}.

(** The same sensor configured without a zone entity. *)
Definition without_zone (self : binary_sensor.BinarySensor)
  : binary_sensor.BinarySensor :=
  {| binary_sensor._trv_climate_entities := binary_sensor._trv_climate_entities self;
     binary_sensor._heater_entity_id := binary_sensor._heater_entity_id self;
     binary_sensor._minimum_temperature := binary_sensor._minimum_temperature self;
     binary_sensor._away_temp := binary_sensor._away_temp self;
     binary_sensor._zone_entity_id := None;
     binary_sensor._is_heating_demanded := binary_sensor._is_heating_demanded self;
     binary_sensor._max_demand_delta := binary_sensor._max_demand_delta self;
     binary_sensor._max_demand_current_temperature :=
       binary_sensor._max_demand_current_temperature self;
     binary_sensor._max_demand_target_temperature :=
       binary_sensor._max_demand_target_temperature self;
     binary_sensor._max_demand_trv_entity_id :=
       binary_sensor._max_demand_trv_entity_id self;
     binary_sensor._last_sent_target_temperature :=
       binary_sensor._last_sent_target_temperature self;
     binary_sensor._last_sent_hvac_mode := binary_sensor._last_sent_hvac_mode self;
     binary_sensor._max_demand_trv_name := binary_sensor._max_demand_trv_name self;
     binary_sensor._is_away := binary_sensor._is_away self |}.

(** The leader fields of the loop's locals are those of the state of the
    leading entity, which is a valid one; without a leader they are unset. *)
Definition leader_of_store (states : States) (l : binary_sensor.Locals) : Prop :=
  match binary_sensor.leader_entity_id l with
  | Some e =>
      binary_sensor.valid_trv_found l = true
      /\ exists st cur tgt,
           states !! e = Some st
           /\ current_temperature st = Some cur /\ temperature st = Some tgt
           /\ binary_sensor.leader_current_temp l = Some cur
           /\ binary_sensor.leader_target_temp l = Some tgt
           /\ binary_sensor.leader_friendly_name l = friendly_name st
  | None =>
      binary_sensor.leader_current_temp l = None
      /\ binary_sensor.leader_target_temp l = None
      /\ binary_sensor.leader_friendly_name l = None
  end.

(** The loop's locals without the leader's own setpoint. *)
Definition forget_target (l : binary_sensor.Locals) : binary_sensor.Locals :=
  {| binary_sensor.demanding_trvs := binary_sensor.demanding_trvs l;
     binary_sensor.max_delta := binary_sensor.max_delta l;
     binary_sensor.leader_entity_id := binary_sensor.leader_entity_id l;
     binary_sensor.leader_current_temp := binary_sensor.leader_current_temp l;
     binary_sensor.leader_target_temp := None;
     binary_sensor.leader_friendly_name := binary_sensor.leader_friendly_name l;
     binary_sensor.valid_trv_found := binary_sensor.valid_trv_found l |}.

(** The demand condition of the plain sensor, as a proposition. *)
Definition plain_demand (st : State) : Prop :=
  hvac_action st = Some "heating"
  \/ (state st = "heat"
      /\ exists cur tgt, current_temperature st = Some cur
                       /\ temperature st = Some tgt /\ (cur < tgt)%Q).

(** The demand condition of the binary sensor for one state. *)
Definition binary_demand (is_away : bool) (away_temp : Q) (st : State) : Prop :=
  exists cur tgt,
    current_temperature st = Some cur /\ temperature st = Some tgt
    /\ (hvac_action st = Some "heating"
        \/ (state st = "heat"
            /\ (0 < binary_sensor.effective_target_temperature is_away away_temp tgt
                     - cur)%Q)).

(** Two optional numbers that Python's [!=] does not tell apart. *)
Definition same_number (a b : option Q) : Prop :=
  match a, b with
  | Some x, Some y => (x == y)%Q
  | None, None => True
  | _, _ => False
  end.

(** The same command dispatched once per element of [runs], each time
    against the services of that run: every outbound call with its outcome,
    in order. *)
Fixpoint repeat_dispatch (runs : list Services) (self : binary_sensor.BinarySensor)
  (target_temp : Q) (target_hvac_mode : string) : list (ServiceCall * Outcome) :=
  match runs with
  | [] => []
  | services :: rest =>
      let r := binary_sensor._async_control_heater services self target_temp
                 target_hvac_mode in
      (map (fun c => (c, services c)) (snd r)
       ++ repeat_dispatch rest (fst r) target_temp target_hvac_mode)%list
  end.

(** A [set_temperature] call that returned; a [set_hvac_mode] call that
    returned. *)
Definition temperature_sent (p : ServiceCall * Outcome) : bool :=
  match p with
  | (set_temperature _ _, Returned) => true
  | _ => false
  end.

Definition hvac_mode_sent (p : ServiceCall * Outcome) : bool :=
  match p with
  | (set_hvac_mode _ _, Returned) => true
  | _ => false
  end.

(** The service call is addressed to [heater]. *)
Definition addressed_to (heater : option string) (c : ServiceCall) : Prop :=
  match c with
  | set_temperature e _ => e = heater
  | set_hvac_mode e _ => e = heater
  end.

(** ** Sample installations *)

Module samples.

Definition trv (st : string) (action : string) (cur tgt : Q) (name : string)
  : State :=
  {| state := st; hvac_action := Some action; current_temperature := Some cur;
     temperature := Some tgt; friendly_name := Some name |}.

(** The scenario of two TRVs, one heating at 18 for 21, one idle at 20 for 20. *)
Definition two_trvs : States :=
  <["climate.trv1" := trv "heat" "heating" 18 21 "TRV 1"]>
  (<["climate.trv2" := trv "heat" "idle" 20 20 "TRV 2"]> ∅).

(** The away scenario: zone state "0", one TRV at 15 wanting 21. *)
Definition away_home : States :=
  <["zone.home" :=
     {| state := "0"; hvac_action := None; current_temperature := None;
        temperature := None; friendly_name := Some "Home" |}]>
  (<["climate.trv1" := trv "heat" "idle" 15 21 "TRV 1"]> ∅).

(** A TRV that reports heating but no current temperature. *)
Definition heating_no_reading : States :=
  <["climate.trv1" :=
     {| state := "heat"; hvac_action := Some "heating";
        current_temperature := None; temperature := Some 21%Q;
        friendly_name := Some "TRV 1" |}]> ∅.

(** A TRV whose reading is 120 against a setpoint of 5. *)
Definition hot_room : States :=
  <["climate.trv1" := trv "off" "idle" 120 5 "TRV 1"]> ∅.

(** Deltas 2, 2, 3 for A, B, C. *)
Definition abc : States :=
  <["climate.a" := trv "heat" "idle" 18 20 "A"]>
  (<["climate.b" := trv "heat" "idle" 19 21 "B"]>
  (<["climate.c" := trv "heat" "idle" 17 20 "C"]> ∅)).

(** Deltas 3, 3 for A, B. *)
Definition ab : States :=
  <["climate.a" := trv "heat" "idle" 18 21 "A"]>
  (<["climate.b" := trv "heat" "idle" 17 20 "B"]> ∅).

(** Away, with a TRV at 15 wanting 21 that reports heating. *)
Definition away_heating : States :=
  <["zone.home" :=
     {| state := "0"; hvac_action := None; current_temperature := None;
        temperature := None; friendly_name := Some "Home" |}]>
  (<["climate.trv1" := trv "heat" "heating" 15 21 "TRV 1"]> ∅).

(** Away, with a TRV in state "heat" at 10 whose own setpoint is 5. *)
Definition away_cold : States :=
  <["zone.home" :=
     {| state := "0"; hvac_action := None; current_temperature := None;
        temperature := None; friendly_name := Some "Home" |}]>
  (<["climate.trv1" := trv "heat" "idle" 10 5 "TRV 1"]> ∅).

(** Services that always return, and services whose [set_temperature]
    raises. *)
Definition all_good : Services := fun _ => Returned.

Definition temperature_fails : Services :=
  fun c => match c with set_temperature _ _ => Raised | _ => Returned end.

Definition sensor_of (trvs : list string) : binary_sensor.BinarySensor :=
  binary_sensor.init trvs (Some "climate.boiler") 5 12 None.

Definition away_sensor_of (trvs : list string) : binary_sensor.BinarySensor :=
  binary_sensor.init trvs (Some "climate.boiler") 5 12 (Some "zone.home").

(** A TRV at 18 wanting 21, idle, in raw state "off", and the same TRV in raw
    state "heat". *)
Definition trv_off : State := trv "off" "idle" 18 21 "TRV 1".
Definition trv_heat : State := trv "heat" "idle" 18 21 "TRV 1".

Definition switched_on : States := <["climate.trv1" := trv_heat]> ∅.

(** Services that fail on every odd attempt of a list of four runs. *)
Definition flaky_runs : list Services :=
  [temperature_fails; all_good; temperature_fails; all_good].

(** A [json.loads] that knows the empty array and one number, and raises
    [JSONDecodeError] on everything else. *)
Definition json_loads_sample (s : string) : Loads :=
  if String.eqb s "[]" then Parsed (PList [])
  else if String.eqb s "7" then Parsed POther
  else JSONDecodeError.

End samples.

(** * Properties *)

Local Open Scope Q_scope.

(** ** Python idioms *)

Lemma Qgt_bool_true (a b : Q) : Qgt_bool a b = true <-> b < a.
Proof.
  unfold Qgt_bool. rewrite negb_true_iff. split.
  - intros H. apply Qnot_le_lt. intros Hle.
    apply Qle_bool_iff in Hle. congruence.
  - intros H. destruct (Qle_bool a b) eqn:E; [|reflexivity].
    apply Qle_bool_iff in E. exfalso. exact (Qlt_not_le _ _ H E).
Qed.

Lemma Qgt_bool_false (a b : Q) : Qgt_bool a b = false <-> a <= b.
Proof.
  unfold Qgt_bool. rewrite negb_false_iff. apply Qle_bool_iff.
Qed.

Lemma py_max_nonneg (x : Q) : 0 <= py_max 0 x.
Proof.
  unfold py_max. destruct (Qgt_bool x 0) eqn:E.
  - apply Qgt_bool_true in E. apply Qlt_le_weak. exact E.
  - apply Qle_refl.
Qed.

Lemma opt_str_eqb_true (x : option string) (s : string) :
  opt_str_eqb x s = true <-> x = Some s.
Proof.
  destruct x as [v|]; simpl.
  - rewrite String.eqb_eq. split; congruence.
  - split; congruence.
Qed.

Lemma truthy_true (o : option string) :
  truthy o = true <-> exists s, o = Some s /\ s <> ""%string.
Proof.
  destruct o as [s|]; simpl.
  - rewrite negb_true_iff. split.
    + intros H. exists s. split; [reflexivity|].
      intros ->. rewrite String.eqb_refl in H. discriminate.
    + intros (s' & [= <-] & Hne). apply String.eqb_neq. exact Hne.
  - split; [discriminate|]. intros (s & H & _). discriminate.
Qed.

(** ** The plain sensor *)

Section plain_sensor.

Variable states : States.

Lemma demands_iff (st : State) : sensor.demands st = true <-> plain_demand st.
Proof.
  unfold sensor.demands, plain_demand.
  rewrite orb_true_iff, andb_true_iff, opt_str_eqb_true, String.eqb_eq.
  split; (intros [H|[Hs H]]; [left; exact H|right; split; [exact Hs|]]).
  - destruct (current_temperature st) as [cur|]; [|discriminate].
    destruct (temperature st) as [tgt|]; [|discriminate].
    exists cur, tgt. rewrite Qgt_bool_true in H. auto.
  - destruct H as (cur & tgt & -> & -> & Hlt). apply Qgt_bool_true. exact Hlt.
Qed.

(** The early exit leaves with a counter one above the entry value exactly
    when some listed entity demands, and with the entry value otherwise. *)
Lemma sensor_loop_spec (trvs : list string) (n : Z) :
  (sensor.trv_loop states trvs n = (n + 1)%Z
   /\ exists e st, In e trvs /\ states !! e = Some st /\ sensor.demands st = true)
  \/ (sensor.trv_loop states trvs n = n
      /\ forall e st, In e trvs -> states !! e = Some st -> sensor.demands st = false).
Proof.
  induction trvs as [|e rest IH]; simpl.
  - right. split; [reflexivity|]. intros e st [].
  - destruct (states !! e) as [st|] eqn:Hst.
    + destruct (sensor.demands st) eqn:Hd.
      * left. split; [reflexivity|]. exists e, st. auto.
      * destruct IH as [[-> (e' & st' & Hin & Hl & Hd')]|[-> Hall]].
        -- left. split; [reflexivity|]. exists e', st'. auto.
        -- right. split; [reflexivity|].
           intros e' st' [<-|Hin] Hl; [congruence|eauto].
    + destruct IH as [[-> (e' & st' & Hin & Hl & Hd')]|[-> Hall]].
      * left. split; [reflexivity|]. exists e', st'. auto.
      * right. split; [reflexivity|].
        intros e' st' [<-|Hin] Hl; [congruence|eauto].
Qed.

(** The full scan never lowers the counter, and raises it exactly when some
    listed entity demands. *)
Lemma full_scan_spec (trvs : list string) (n : Z) :
  (n <= sensor.full_scan states trvs n)%Z
  /\ ((n < sensor.full_scan states trvs n)%Z
      <-> exists e st, In e trvs /\ states !! e = Some st /\ sensor.demands st = true).
Proof.
  revert n. induction trvs as [|e rest IH]; intros n; simpl.
  - split; [lia|]. split; [lia|]. intros (e & st & [] & _).
  - destruct (states !! e) as [st|] eqn:Hst.
    + destruct (sensor.demands st) eqn:Hd.
      * destruct (IH (n + 1)%Z) as [Hle _]. split; [lia|].
        split; [|lia]. intros _. exists e, st. auto.
      * destruct (IH n) as [Hle Hiff]. split; [exact Hle|].
        rewrite Hiff. split.
        -- intros (e' & st' & Hin & Hl & Hd'). exists e', st'. auto.
        -- intros (e' & st' & [<-|Hin] & Hl & Hd'); [congruence|].
           exists e', st'. auto.
    + destruct (IH n) as [Hle Hiff]. split; [exact Hle|].
      rewrite Hiff. split.
      * intros (e' & st' & Hin & Hl & Hd'). exists e', st'. auto.
      * intros (e' & st' & [<-|Hin] & Hl & Hd'); [congruence|].
        exists e', st'. auto.
Qed.

End plain_sensor.

(** C9: after a recompute the plain sensor's state is "on" exactly when some
    configured TRV with a state reports [hvac_action] "heating", or is in
    state "heat" with both temperatures present and the current one strictly
    below its own setpoint.  No away adjustment takes part: in the away
    installation [samples.away_home] (away temperature 12, a TRV at 15 for a
    setpoint of 21) the plain sensor is "on" while the binary sensor, which
    compares against the away temperature, is off. *)
Theorem plain_sensor_on_iff :
  (forall (states : States) (self : sensor.Sensor),
     sensor.state (sensor._async_update_heating_demand states self) = "on"%string
     <-> exists e st, In e (sensor._trv_climate_entities self)
                      /\ states !! e = Some st /\ plain_demand st)
  /\ sensor.state (sensor._async_update_heating_demand samples.away_home
                     (sensor.init ["climate.trv1"%string])) = "on"%string
  /\ binary_sensor.is_on
       (fst (binary_sensor._async_update_heating_demand samples.away_home
               (samples.away_sensor_of ["climate.trv1"%string]))) = false.
Proof.
  split; [|split; vm_compute; reflexivity].
  intros states self. unfold sensor.state, sensor._async_update_heating_demand.
  cbn [sensor._is_heating_demanded sensor._trv_climate_entities].
  destruct (sensor_loop_spec states (sensor._trv_climate_entities self) 0)
    as [[-> (e & st & Hin & Hl & Hd)]|[-> Hall]]; cbn.
  - split; [|reflexivity]. intros _. exists e, st.
    rewrite <- demands_iff. auto.
  - split; [discriminate|]. intros (e & st & Hin & Hl & Hd).
    apply demands_iff in Hd. rewrite (Hall e st Hin Hl) in Hd. discriminate.
Qed.

(** C10: leaving the scan at the first demanding TRV gives the same verdict
    as visiting the whole list and counting every demanding TRV: the two
    counters are positive together, and so the sensor's flag is the one a
    full scan would produce. *)
Theorem early_exit_agrees_with_full_scan (states : States) (self : sensor.Sensor) :
  let trvs := sensor._trv_climate_entities self in
  (0 <? sensor.trv_loop states trvs 0)%Z = (0 <? sensor.full_scan states trvs 0)%Z
  /\ sensor._is_heating_demanded (sensor._async_update_heating_demand states self)
     = (0 <? sensor.full_scan states trvs 0)%Z.
Proof.
  intros trvs.
  assert (H : (0 <? sensor.trv_loop states trvs 0)%Z
              = (0 <? sensor.full_scan states trvs 0)%Z).
  { destruct (full_scan_spec states trvs 0) as [Hle Hiff].
    destruct (sensor_loop_spec states trvs 0) as [[-> Hex]|[-> Hall]].
    - apply Hiff in Hex. symmetry. apply Z.ltb_lt in Hex. rewrite Hex. reflexivity.
    - destruct (0 <? sensor.full_scan states trvs 0)%Z eqn:E; [|reflexivity].
      apply Z.ltb_lt, Hiff in E. destruct E as (e & st & Hin & Hl & Hd).
      rewrite (Hall e st Hin Hl) in Hd. discriminate. }
  split; [exact H|]. unfold sensor._async_update_heating_demand. cbn. exact H.
Qed.

(** ** The binary sensor's loop *)

Section binary_loop.

Import binary_sensor.

Variables (states : States) (is_away : bool) (away_temp : Q).

Local Abbreviation step := (trv_step states is_away away_temp).
Local Abbreviation loop := (trv_loop states is_away away_temp).
Local Abbreviation delta := (delta_at states is_away away_temp).

Lemma loop_nil (l : Locals) : loop [] l = l.
Proof. reflexivity. Qed.

Lemma loop_cons (e : string) (trvs : list string) (l : Locals) :
  loop (e :: trvs) l = loop trvs (step l e).
Proof. reflexivity. Qed.

Lemma loop_app (xs ys : list string) (l : Locals) :
  loop (xs ++ ys) l = loop ys (loop xs l).
Proof. unfold trv_loop. apply fold_left_app. Qed.

(** An entity without a delta is skipped. *)
Lemma step_skip (l : Locals) (e : string) : delta e = None -> step l e = l.
Proof.
  unfold delta_at, trv_step. destruct (states !! e) as [st|]; [|reflexivity].
  destruct (current_temperature st), (temperature st);
    (reflexivity || discriminate).
Qed.

(** An entity with delta [d] takes the lead exactly when [d] is strictly
    above the running maximum. *)
Lemma step_lead (l : Locals) (e : string) (d : Q) :
  delta e = Some d -> max_delta l < d ->
  max_delta (step l e) = d /\ leader_entity_id (step l e) = Some e.
Proof.
  unfold delta_at, trv_step. intros Hd Hlt.
  destruct (states !! e) as [st|]; [|discriminate].
  destruct (current_temperature st) as [cur|], (temperature st) as [tgt|];
    try discriminate.
  injection Hd as Hd. rewrite Hd.
  apply Qgt_bool_true in Hlt. rewrite Hlt. cbn. auto.
Qed.

Lemma step_keep (l : Locals) (e : string) (d : Q) :
  delta e = Some d -> d <= max_delta l ->
  max_delta (step l e) = max_delta l
  /\ leader_entity_id (step l e) = leader_entity_id l
  /\ leader_current_temp (step l e) = leader_current_temp l
  /\ leader_target_temp (step l e) = leader_target_temp l
  /\ leader_friendly_name (step l e) = leader_friendly_name l.
Proof.
  unfold delta_at, trv_step. intros Hd Hle.
  destruct (states !! e) as [st|]; [|discriminate].
  destruct (current_temperature st) as [cur|], (temperature st) as [tgt|];
    try discriminate.
  injection Hd as Hd. rewrite Hd.
  apply Qgt_bool_false in Hle. rewrite Hle. cbn. auto.
Qed.

(** Once the running maximum bounds every remaining delta, the rest of the
    loop leaves the leader alone. *)
Lemma loop_keeps_leader (trvs : list string) (l : Locals) :
  (forall x dx, In x trvs -> delta x = Some dx -> dx <= max_delta l) ->
  max_delta (loop trvs l) = max_delta l
  /\ leader_entity_id (loop trvs l) = leader_entity_id l
  /\ leader_current_temp (loop trvs l) = leader_current_temp l
  /\ leader_target_temp (loop trvs l) = leader_target_temp l
  /\ leader_friendly_name (loop trvs l) = leader_friendly_name l.
Proof.
  revert l. induction trvs as [|e rest IH]; intros l Hall.
  - rewrite loop_nil. auto.
  - rewrite loop_cons. destruct (delta e) as [d|] eqn:Hd.
    + destruct (step_keep l e d Hd) as (Hm & Hi & Hc & Ht & Hn).
      { apply (Hall e d); [left; reflexivity|exact Hd]. }
      destruct (IH (step l e)) as (Hm' & Hi' & Hc' & Ht' & Hn').
      { intros x dx Hin Hx. rewrite Hm. apply (Hall x dx); [right|]; assumption. }
      repeat split; congruence.
    + rewrite (step_skip l e Hd). apply IH.
      intros x dx Hin Hx. apply (Hall x dx); [right|]; assumption.
Qed.

(** A strict bound on the running maximum and on every delta met is a strict
    bound on the running maximum afterwards. *)
Lemma loop_below (trvs : list string) (l : Locals) (d : Q) :
  max_delta l < d ->
  (forall x dx, In x trvs -> delta x = Some dx -> dx < d) ->
  max_delta (loop trvs l) < d.
Proof.
  revert l. induction trvs as [|e rest IH]; intros l Hl Hall.
  - rewrite loop_nil. exact Hl.
  - rewrite loop_cons. apply IH.
    + destruct (delta e) as [de|] eqn:Hd.
      * destruct (Qlt_le_dec (max_delta l) de) as [Hlt|Hle].
        -- destruct (step_lead l e de Hd Hlt) as [-> _].
           apply (Hall e de); [left; reflexivity|exact Hd].
        -- destruct (step_keep l e de Hd Hle) as [-> _]. exact Hl.
      * rewrite (step_skip l e Hd). exact Hl.
    + intros x dx Hin Hx. apply (Hall x dx); [right|]; assumption.
Qed.

(** What the loop, started with the locals of line 187-196, has established
    after the entities [trvs]. *)
Lemma loop_invariant (trvs : list string) :
  let l := loop trvs locals0 in
  -100 <= max_delta l
  /\ (forall x dx, In x trvs -> delta x = Some dx -> dx <= max_delta l)
  /\ match leader_entity_id l with
     | None => max_delta l = -100
     | Some e =>
         exists before after,
           trvs = (before ++ e :: after)%list
           /\ delta e = Some (max_delta l)
           /\ -100 < max_delta l
           /\ forall x dx, In x before -> delta x = Some dx -> dx < max_delta l
     end.
Proof.
  induction trvs as [|e trvs IH] using rev_ind; cbn zeta.
  - rewrite loop_nil. cbn. split; [apply Qle_refl|]. split; [|reflexivity].
    intros x dx [].
  - cbn zeta in IH. rewrite loop_app, loop_cons, loop_nil.
    set (l := loop trvs locals0) in *.
    destruct IH as (Hlow & Hub & Hlead).
    destruct (delta e) as [d|] eqn:Hd.
    + destruct (Qlt_le_dec (max_delta l) d) as [Hlt|Hle].
      * destruct (step_lead l e d Hd Hlt) as [-> ->].
        split; [apply Qlt_le_weak, (Qle_lt_trans _ _ _ Hlow Hlt)|].
        split.
        -- intros x dx Hin Hx. apply in_app_or in Hin.
           destruct Hin as [Hin|[<-|[]]].
           ++ apply Qle_trans with (max_delta l); [eauto|].
              apply Qlt_le_weak, Hlt.
           ++ rewrite Hd in Hx. injection Hx as <-. apply Qle_refl.
        -- exists trvs, []. split; [reflexivity|]. split; [exact Hd|].
           split; [exact (Qle_lt_trans _ _ _ Hlow Hlt)|].
           intros x dx Hin Hx. apply Qle_lt_trans with (max_delta l); eauto.
      * destruct (step_keep l e d Hd Hle) as (-> & -> & _).
        split; [exact Hlow|]. split.
        -- intros x dx Hin Hx. apply in_app_or in Hin.
           destruct Hin as [Hin|[<-|[]]]; [eauto|].
           rewrite Hd in Hx. injection Hx as <-. exact Hle.
        -- destruct (leader_entity_id l) as [e0|]; [|exact Hlead].
           destruct Hlead as (before & after & -> & H1 & H2 & H3).
           exists before, (after ++ [e])%list.
           rewrite <- app_assoc. cbn. auto.
    + rewrite (step_skip l e Hd).
      split; [exact Hlow|]. split.
      * intros x dx Hin Hx. apply in_app_or in Hin.
        destruct Hin as [Hin|[<-|[]]]; [eauto|congruence].
      * destruct (leader_entity_id l) as [e0|]; [|exact Hlead].
        destruct Hlead as (before & after & -> & H1 & H2 & H3).
        exists before, (after ++ [e])%list.
        rewrite <- app_assoc. cbn. auto.
Qed.

(** The demand counter never decreases, and a valid TRV that reports
    heating raises it. *)
Lemma step_demanding_mono (l : Locals) (e : string) :
  (demanding_trvs l <= demanding_trvs (step l e))%Z.
Proof.
  unfold trv_step. destruct (states !! e) as [st|]; [|lia].
  destruct (current_temperature st) as [cur|], (temperature st) as [tgt|];
    try lia.
  cbv zeta.
  destruct (opt_str_eqb (hvac_action st) "heating"
            || String.eqb (state st) "heat"
               && Qgt_bool (effective_target_temperature is_away away_temp tgt - cur) 0);
    destruct (Qgt_bool (effective_target_temperature is_away away_temp tgt - cur)
                (max_delta l)); cbn; lia.
Qed.

Lemma loop_demanding_mono (trvs : list string) (l : Locals) :
  (demanding_trvs l <= demanding_trvs (loop trvs l))%Z.
Proof.
  revert l. induction trvs as [|e rest IH]; intros l.
  - rewrite loop_nil. lia.
  - rewrite loop_cons. pose proof (step_demanding_mono l e).
    pose proof (IH (step l e)). lia.
Qed.

Lemma step_counts_heating (l : Locals) (e : string) (st : State) (cur tgt : Q) :
  states !! e = Some st -> hvac_action st = Some "heating"%string ->
  current_temperature st = Some cur -> temperature st = Some tgt ->
  (demanding_trvs l < demanding_trvs (step l e))%Z.
Proof.
  intros Hst Ha Hc Ht. unfold trv_step. rewrite Hst, Hc, Ht, Ha. cbn.
  destruct (Qgt_bool _ (max_delta l)); cbn; lia.
Qed.

Lemma loop_counts_heating (trvs : list string) (l : Locals) (e : string)
  (st : State) (cur tgt : Q) :
  In e trvs -> states !! e = Some st -> hvac_action st = Some "heating"%string ->
  current_temperature st = Some cur -> temperature st = Some tgt ->
  (demanding_trvs l < demanding_trvs (loop trvs l))%Z.
Proof.
  intros Hin Hst Ha Hc Ht. revert l.
  induction trvs as [|x rest IH]; intros l; [destruct Hin|].
  rewrite loop_cons. destruct Hin as [->|Hin].
  - pose proof (step_counts_heating l e st cur tgt Hst Ha Hc Ht).
    pose proof (loop_demanding_mono rest (step l e)). lia.
  - pose proof (step_demanding_mono l x).
    pose proof (IH Hin (step l x)). lia.
Qed.

(** The leader fields always describe the leading entity. *)
Lemma step_leader_of_store (l : Locals) (e : string) :
  leader_of_store states l -> leader_of_store states (step l e).
Proof.
  unfold leader_of_store, trv_step. intros Hl.
  destruct (states !! e) as [st|] eqn:Hst; [|exact Hl].
  destruct (current_temperature st) as [cur|] eqn:Hc; [|exact Hl].
  destruct (temperature st) as [tgt|] eqn:Ht; [|exact Hl].
  cbv zeta. destruct (Qgt_bool _ (max_delta l)); cbn.
  - split; [reflexivity|]. exists st, cur, tgt. auto 7.
  - destruct (leader_entity_id l) as [e0|]; [|exact Hl].
    destruct Hl as [_ Hl]. split; [reflexivity|exact Hl].
Qed.

Lemma loop_leader_of_store (trvs : list string) (l : Locals) :
  leader_of_store states l -> leader_of_store states (loop trvs l).
Proof.
  revert l. induction trvs as [|e rest IH]; intros l Hl.
  - exact Hl.
  - rewrite loop_cons. apply IH, step_leader_of_store, Hl.
Qed.

(** Entities without a delta leave the locals as they were. *)
Lemma loop_skip_all (trvs : list string) (l : Locals) :
  (forall x, In x trvs -> delta x = None) -> loop trvs l = l.
Proof.
  revert l. induction trvs as [|e rest IH]; intros l Hall.
  - reflexivity.
  - rewrite loop_cons, (step_skip l e); [|apply Hall; left; reflexivity].
    apply IH. intros x Hin. apply Hall. right. exact Hin.
Qed.

End binary_loop.

(** ** The binary sensor's leader *)

(** The leader in terms of the deltas: where it stands in the configured
    list, and when there is none. *)
Lemma leader_characterisation (states : States) (is_away : bool) (away_temp : Q)
  (trvs : list string) :
  let l := binary_sensor.trv_loop states is_away away_temp trvs
             binary_sensor.locals0 in
  (forall e, binary_sensor.leader_entity_id l = Some e ->
     exists before after d,
       trvs = (before ++ e :: after)%list
       /\ delta_at states is_away away_temp e = Some d
       /\ binary_sensor.max_delta l = d
       /\ (forall x dx, In x before ->
              delta_at states is_away away_temp x = Some dx -> dx < d)
       /\ (forall x dx, In x after ->
              delta_at states is_away away_temp x = Some dx -> dx <= d))
  /\ (binary_sensor.leader_entity_id l = None
      <-> forall x dx, In x trvs ->
            delta_at states is_away away_temp x = Some dx -> dx <= -100).
Proof.
  intros l.
  destruct (loop_invariant states is_away away_temp trvs) as (Hlow & Hub & Hlead).
  fold l in Hlow, Hub, Hlead. split.
  - intros e He. rewrite He in Hlead.
    destruct Hlead as (before & after & Htrvs & Hd & Hgt & Hbefore).
    exists before, after, (binary_sensor.max_delta l).
    repeat split; try assumption.
    intros x dx Hin Hx. apply (Hub x dx); [|exact Hx].
    rewrite Htrvs. apply in_or_app. right. right. exact Hin.
  - split.
    + intros Hnone. rewrite Hnone in Hlead. rewrite <- Hlead. exact Hub.
    + intros Hall. destruct (binary_sensor.leader_entity_id l) as [e|]; [|reflexivity].
      destruct Hlead as (before & after & Htrvs & Hd & Hgt & _).
      exfalso. apply (Qlt_not_le _ _ Hgt). apply (Hall e); [|exact Hd].
      rewrite Htrvs. apply in_or_app. right. left. reflexivity.
Qed.

(** The leader, when one is selected, is the first TRV in configured order
    whose delta is the largest; deltas 2, 2, 3 for A, B, C give leader C and
    deltas 3, 3 for A, B give leader A. *)
Lemma leader_is_first_strict_maximum :
  (forall (states : States) (is_away : bool) (away_temp : Q) (trvs : list string),
     let l := binary_sensor.trv_loop states is_away away_temp trvs
                binary_sensor.locals0 in
     (forall e, binary_sensor.leader_entity_id l = Some e ->
        exists before after d,
          trvs = (before ++ e :: after)%list
          /\ delta_at states is_away away_temp e = Some d
          /\ binary_sensor.max_delta l = d
          /\ (forall x dx, In x before ->
                 delta_at states is_away away_temp x = Some dx -> dx < d)
          /\ (forall x dx, In x after ->
                 delta_at states is_away away_temp x = Some dx -> dx <= d))
     /\ (binary_sensor.leader_entity_id l = None
         <-> forall x dx, In x trvs ->
               delta_at states is_away away_temp x = Some dx -> dx <= -100))
  /\ (map (delta_at samples.abc false 12) ["climate.a"; "climate.b"; "climate.c"]%string
        = [Some 2; Some 2; Some 3]
      /\ binary_sensor.leader_entity_id
           (binary_sensor.trv_loop samples.abc false 12
              ["climate.a"; "climate.b"; "climate.c"]%string binary_sensor.locals0)
         = Some "climate.c"%string)
  /\ (map (delta_at samples.ab false 12) ["climate.a"; "climate.b"]%string
        = [Some 3; Some 3]
      /\ binary_sensor.leader_entity_id
           (binary_sensor.trv_loop samples.ab false 12
              ["climate.a"; "climate.b"]%string binary_sensor.locals0)
         = Some "climate.a"%string).
Proof.
  split; [|split; split; vm_compute; reflexivity].
  intros states is_away away_temp trvs. apply leader_characterisation.
Qed.

(** The first TRV with the largest delta becomes the leader, whatever
    follows it, as soon as its delta is above the initial -100. *)
Lemma first_maximum_leads (states : States) (is_away : bool) (away_temp : Q)
  (before after : list string) (e : string) (d : Q) :
  delta_at states is_away away_temp e = Some d ->
  -100 < d ->
  (forall x dx, In x before -> delta_at states is_away away_temp x = Some dx -> dx < d) ->
  (forall x dx, In x after -> delta_at states is_away away_temp x = Some dx -> dx <= d) ->
  let l := binary_sensor.trv_loop states is_away away_temp
             (before ++ e :: after) binary_sensor.locals0 in
  binary_sensor.leader_entity_id l = Some e /\ binary_sensor.max_delta l = d.
Proof.
  intros Hd Hgt Hbefore Hafter l. subst l.
  rewrite loop_app, loop_cons.
  pose proof (loop_below states is_away away_temp before binary_sensor.locals0 d
                Hgt Hbefore) as Hb.
  destruct (step_lead states is_away away_temp _ e d Hd Hb) as [Hm Hi].
  destruct (loop_keeps_leader states is_away away_temp after
              (binary_sensor.trv_step states is_away away_temp
                 (binary_sensor.trv_loop states is_away away_temp before
                    binary_sensor.locals0) e))
    as (Hm' & Hi' & _).
  { rewrite Hm. exact Hafter. }
  split; congruence.
Qed.

(** C3, at the failing input: the only TRV of [samples.hot_room] is valid and
    its delta -115 is the largest of the list, yet the loop selects no
    leader, because -115 is not above the initial -100.  So the TRV with the
    largest delta is not the leader for every list of valid readings. *)
Theorem largest_delta_without_leader :
  samples.hot_room !! "climate.trv1"%string
    = Some (samples.trv "off" "idle" 120 5 "TRV 1")
  /\ delta_at samples.hot_room false 12 "climate.trv1" = Some (-115)
  /\ binary_sensor.leader_entity_id
       (binary_sensor.trv_loop samples.hot_room false 12 ["climate.trv1"%string]
          binary_sensor.locals0) = None
  /\ ~ (forall (states : States) (is_away : bool) (away_temp : Q)
           (before after : list string) (e : string) (d : Q),
           delta_at states is_away away_temp e = Some d ->
           (forall x dx, In x before ->
              delta_at states is_away away_temp x = Some dx -> dx < d) ->
           (forall x dx, In x after ->
              delta_at states is_away away_temp x = Some dx -> dx <= d) ->
           binary_sensor.leader_entity_id
             (binary_sensor.trv_loop states is_away away_temp
                (before ++ e :: after) binary_sensor.locals0) = Some e).
Proof.
  split; [vm_compute; reflexivity|].
  split; [vm_compute; reflexivity|].
  split; [vm_compute; reflexivity|].
  intros H.
  specialize (H samples.hot_room false 12 [] [] "climate.trv1"%string (-115)).
  assert (Hl : binary_sensor.leader_entity_id
                 (binary_sensor.trv_loop samples.hot_room false 12
                    ([] ++ ["climate.trv1"%string]) binary_sensor.locals0) = None)
    by (vm_compute; reflexivity).
  rewrite H in Hl.
  - discriminate.
  - vm_compute. reflexivity.
  - intros x dx [].
  - intros x dx [].
Qed.

(** C4, as stated: a tie for the largest delta is not won by the TRV seen
    last.  With deltas 3, 3 for A, B the leader is A although B is the last
    TRV with the largest delta. *)
Lemma tie_not_won_by_last_seen :
  ~ (forall (states : States) (is_away : bool) (away_temp : Q)
       (before after : list string) (e e' : string) (d d' : Q),
       delta_at states is_away away_temp e = Some d ->
       (forall x dx, In x before ->
          delta_at states is_away away_temp x = Some dx -> dx <= d) ->
       (forall x dx, In x after ->
          delta_at states is_away away_temp x = Some dx -> dx < d) ->
       In e' before -> delta_at states is_away away_temp e' = Some d' -> d' == d ->
       binary_sensor.leader_entity_id
         (binary_sensor.trv_loop states is_away away_temp
            (before ++ e :: after) binary_sensor.locals0) = Some e).
Proof.
  intros H.
  specialize (H samples.ab false 12 ["climate.a"%string] [] "climate.b"%string
                "climate.a"%string 3 3).
  assert (Hl : binary_sensor.leader_entity_id
                 (binary_sensor.trv_loop samples.ab false 12
                    (["climate.a"%string] ++ "climate.b"%string :: [])
                    binary_sensor.locals0) = Some "climate.a"%string)
    by (vm_compute; reflexivity).
  rewrite H in Hl.
  - discriminate.
  - vm_compute. reflexivity.
  - intros x dx [<-|[]] Hx. vm_compute in Hx. injection Hx as <-. apply Qle_refl.
  - intros x dx [].
  - left. reflexivity.
  - vm_compute. reflexivity.
  - reflexivity.
Qed.

(** C4, amended: when two or more TRVs share the largest delta and that
    delta is above the initial -100, the leader is the one of them that comes
    first in the configured order. *)
Theorem tie_won_by_first_seen (states : States) (is_away : bool) (away_temp : Q)
  (before after : list string) (e e' : string) (d d' : Q) :
  delta_at states is_away away_temp e = Some d ->
  -100 < d ->
  (forall x dx, In x before -> delta_at states is_away away_temp x = Some dx -> dx < d) ->
  (forall x dx, In x after -> delta_at states is_away away_temp x = Some dx -> dx <= d) ->
  In e' after -> delta_at states is_away away_temp e' = Some d' -> d' == d ->
  binary_sensor.leader_entity_id
    (binary_sensor.trv_loop states is_away away_temp
       (before ++ e :: after) binary_sensor.locals0) = Some e.
Proof.
  intros Hd Hgt Hbefore Hafter _ _ _.
  exact (proj1 (first_maximum_leads states is_away away_temp before after e d
                  Hd Hgt Hbefore Hafter)).
Qed.

(** Deltas 3, 3 for A, B: A leads. *)
Lemma tie_won_by_first_seen_witness :
  binary_sensor.leader_entity_id
    (binary_sensor.trv_loop samples.ab false 12
       ([] ++ "climate.a"%string :: ["climate.b"%string]) binary_sensor.locals0)
  = Some "climate.a"%string.
Proof.
  apply (tie_won_by_first_seen samples.ab false 12 [] ["climate.b"%string]
           "climate.a"%string "climate.b"%string 3 3).
  - vm_compute. reflexivity.
  - reflexivity.
  - intros x dx [].
  - intros x dx [<-|[]] Hx. vm_compute in Hx. injection Hx as <-. apply Qle_refl.
  - left. reflexivity.
  - vm_compute. reflexivity.
  - reflexivity.
Defined.

(** ** The binary sensor's attributes *)

(** C1, as stated: a TRV that reports heating but lacks its current
    temperature is skipped before the demand test, and the sensor stays
    off. *)
Lemma heating_without_reading_not_counted :
  ~ (forall (states : States) (self : binary_sensor.BinarySensor) (e : string)
       (st : State),
       In e (binary_sensor._trv_climate_entities self) ->
       states !! e = Some st ->
       hvac_action st = Some "heating"%string ->
       binary_sensor.is_on
         (fst (binary_sensor._async_update_heating_demand states self)) = true).
Proof.
  intros H.
  specialize (H samples.heating_no_reading
                (samples.sensor_of ["climate.trv1"%string]) "climate.trv1"%string
                {| state := "heat"; hvac_action := Some "heating"%string;
                   current_temperature := None; temperature := Some 21;
                   friendly_name := Some "TRV 1"%string |}).
  assert (Hoff : binary_sensor.is_on
                   (fst (binary_sensor._async_update_heating_demand
                           samples.heating_no_reading
                           (samples.sensor_of ["climate.trv1"%string]))) = false)
    by (vm_compute; reflexivity).
  rewrite H in Hoff.
  - discriminate.
  - left. reflexivity.
  - vm_compute. reflexivity.
  - reflexivity.
Qed.

(** C1, amended: if a configured TRV has a state with both temperatures
    present and [hvac_action] "heating", then the sensor demands heating,
    whatever the TRV's raw state and whatever the two temperatures are. *)
Theorem heating_action_demands (states : States)
  (self : binary_sensor.BinarySensor) (e : string) (st : State) (cur tgt : Q) :
  In e (binary_sensor._trv_climate_entities self) ->
  states !! e = Some st ->
  hvac_action st = Some "heating"%string ->
  current_temperature st = Some cur ->
  temperature st = Some tgt ->
  binary_sensor.is_on
    (fst (binary_sensor._async_update_heating_demand states self)) = true.
Proof.
  intros Hin Hst Ha Hc Ht. cbn. apply Z.ltb_lt.
  exact (loop_counts_heating states _ _ _ binary_sensor.locals0 e st cur tgt
           Hin Hst Ha Hc Ht).
Qed.

(** Away at 12, a TRV at 15 for 21 that reports heating: heating is demanded
    although the delta is negative. *)
Lemma heating_action_demands_witness :
  binary_sensor.is_on
    (fst (binary_sensor._async_update_heating_demand samples.away_heating
            (samples.away_sensor_of ["climate.trv1"%string]))) = true.
Proof.
  apply (heating_action_demands samples.away_heating
           (samples.away_sensor_of ["climate.trv1"%string]) "climate.trv1"%string
           (samples.trv "heat" "heating" 15 21 "TRV 1") 15 21).
  - left. reflexivity.
  - vm_compute. reflexivity.
  - reflexivity.
  - reflexivity.
  - reflexivity.
Defined.

(** C2, at the failing input: the only TRV is valid (current temperature 120,
    setpoint 5, hence delta -115), yet no leader is reported and every leader
    field is reset, because the delta is not above the initial -100. *)
Theorem hot_room_leader_fields_reset :
  let self := samples.sensor_of ["climate.trv1"%string] in
  let r := fst (binary_sensor._async_update_heating_demand samples.hot_room self) in
  samples.hot_room !! "climate.trv1"%string
    = Some (samples.trv "off" "idle" 120 5 "TRV 1")
  /\ delta_at samples.hot_room false 12 "climate.trv1" = Some (-115)
  /\ binary_sensor._max_demand_delta r = 0
  /\ binary_sensor._max_demand_current_temperature r = None
  /\ binary_sensor._max_demand_target_temperature r = None
  /\ binary_sensor._max_demand_trv_entity_id r = None
  /\ binary_sensor._max_demand_trv_name r = None.
Proof. vm_compute. repeat split; reflexivity. Qed.

(** What does hold of the leader fields: they are those of the leader as soon
    as some delta is above -100 and no configured entity id is empty, ... *)
Lemma leader_reported_above_threshold (states : States)
  (self : binary_sensor.BinarySensor) (x : string) (dx : Q) :
  let away := binary_sensor.check_away states (binary_sensor._zone_entity_id self) in
  let r := binary_sensor.update_attributes states self in
  In x (binary_sensor._trv_climate_entities self) ->
  delta_at states away (binary_sensor._away_temp self) x = Some dx ->
  -100 < dx ->
  ~ In ""%string (binary_sensor._trv_climate_entities self) ->
  exists e st cur tgt d,
    In e (binary_sensor._trv_climate_entities self)
    /\ states !! e = Some st
    /\ current_temperature st = Some cur /\ temperature st = Some tgt
    /\ delta_at states away (binary_sensor._away_temp self) e = Some d
    /\ binary_sensor._max_demand_delta r = py_max 0 d
    /\ binary_sensor._max_demand_current_temperature r = Some cur
    /\ binary_sensor._max_demand_target_temperature r = Some tgt
    /\ binary_sensor._max_demand_trv_entity_id r = Some e
    /\ binary_sensor._max_demand_trv_name r = friendly_name st.
Proof.
  intros away r Hin Hx Hgt Hne. subst r. unfold binary_sensor.update_attributes.
  fold away. cbn.
  set (l := binary_sensor.trv_loop states away (binary_sensor._away_temp self)
              (binary_sensor._trv_climate_entities self) binary_sensor.locals0).
  destruct (leader_characterisation states away (binary_sensor._away_temp self)
              (binary_sensor._trv_climate_entities self)) as [Hsome Hnone].
  fold l in Hsome, Hnone.
  pose proof (loop_leader_of_store states away (binary_sensor._away_temp self)
                (binary_sensor._trv_climate_entities self) binary_sensor.locals0)
    as Hstore.
  fold l in Hstore. unfold leader_of_store in Hstore.
  destruct (binary_sensor.leader_entity_id l) as [e|] eqn:He.
  - destruct Hstore as [Hv (st & cur & tgt & Hst & Hc & Ht & Hlc & Hlt & Hln)].
    { cbn. auto. }
    destruct (Hsome e eq_refl) as (before & after & d & Htrvs & Hd & Hm & _).
    assert (Hine : In e (binary_sensor._trv_climate_entities self)).
    { rewrite Htrvs. apply in_or_app. right. left. reflexivity. }
    assert (Htruthy : truthy (Some e) = true).
    { apply truthy_true. exists e. split; [reflexivity|]. intros ->. auto. }
    rewrite Hv, Htruthy. cbn.
    exists e, st, cur, tgt, d. rewrite Hm. auto 12.
  - exfalso. apply (Qlt_not_le _ _ Hgt).
    apply (proj1 Hnone eq_refl x dx Hin Hx).
Qed.

(** ... and they are reset when no configured TRV is valid. *)
Lemma leader_reset_without_valid_trv (states : States)
  (self : binary_sensor.BinarySensor) :
  let away := binary_sensor.check_away states (binary_sensor._zone_entity_id self) in
  let r := binary_sensor.update_attributes states self in
  (forall x, In x (binary_sensor._trv_climate_entities self) ->
     delta_at states away (binary_sensor._away_temp self) x = None) ->
  binary_sensor._is_heating_demanded r = false
  /\ binary_sensor._max_demand_delta r = 0
  /\ binary_sensor._max_demand_current_temperature r = None
  /\ binary_sensor._max_demand_target_temperature r = None
  /\ binary_sensor._max_demand_trv_entity_id r = None
  /\ binary_sensor._max_demand_trv_name r = None.
Proof.
  intros away r Hall. subst r. unfold binary_sensor.update_attributes.
  fold away. rewrite (loop_skip_all states away _ _ _ Hall). cbn. auto 6.
Qed.

(** C5: after every recompute the reported [max_demand_delta] is at least
    zero. *)
Theorem max_demand_delta_nonneg (states : States)
  (self : binary_sensor.BinarySensor) :
  0 <= binary_sensor._max_demand_delta
         (fst (binary_sensor._async_update_heating_demand states self)).
Proof.
  cbn. destruct (_ && _); [apply py_max_nonneg|apply Qle_refl].
Qed.

(** ** Away mode *)

Local Arguments binary_sensor.trv_loop : simpl never.

Lemma check_away_true (states : States) (zone_entity_id : option string) :
  binary_sensor.check_away states zone_entity_id = true
  <-> exists z zone_state,
        zone_entity_id = Some z /\ z <> ""%string
        /\ states !! z = Some zone_state /\ state zone_state = "0"%string.
Proof.
  unfold binary_sensor.check_away. split.
  - destruct (truthy zone_entity_id) eqn:Ht; [|discriminate].
    apply truthy_true in Ht. destruct Ht as (z & -> & Hz).
    destruct (states !! z) as [zs|] eqn:Hzs; [|discriminate].
    intros H. apply String.eqb_eq in H. exists z, zs. auto.
  - intros (z & zs & -> & Hz & Hzs & H0).
    assert (Ht : truthy (Some z) = true)
      by (apply truthy_true; exists z; auto).
    rewrite Ht, Hzs. apply String.eqb_eq. exact H0.
Qed.

(** Under away mode one iteration is, but for the leader's own setpoint, the
    iteration of the normal mode over states whose setpoints are all the away
    temperature. *)
Lemma step_away_as_setpoint (states : States) (away_temp : Q)
  (l l' : binary_sensor.Locals) (e : string) :
  forget_target l = forget_target l' ->
  forget_target (binary_sensor.trv_step states true away_temp l e)
  = forget_target
      (binary_sensor.trv_step (with_setpoint away_temp <$> states) false
         away_temp l' e).
Proof.
  intros Hl. unfold binary_sensor.trv_step. rewrite lookup_fmap.
  destruct (states !! e) as [st|]; cbn; [|exact Hl].
  destruct (current_temperature st) as [cur|]; [|exact Hl].
  destruct (temperature st) as [tgt|]; [|exact Hl].
  destruct l, l'. unfold forget_target in Hl. cbn in Hl.
  injection Hl as -> -> -> -> -> ->. cbn.
  destruct (Qgt_bool (away_temp - cur) max_delta0); reflexivity.
Qed.

Lemma loop_away_as_setpoint (states : States) (away_temp : Q)
  (trvs : list string) (l l' : binary_sensor.Locals) :
  forget_target l = forget_target l' ->
  forget_target (binary_sensor.trv_loop states true away_temp trvs l)
  = forget_target
      (binary_sensor.trv_loop (with_setpoint away_temp <$> states) false
         away_temp trvs l').
Proof.
  revert l l'. induction trvs as [|e rest IH]; intros l l' Hl.
  - exact Hl.
  - rewrite !loop_cons. apply IH, step_away_as_setpoint, Hl.
Qed.

(** ** The heater *)

(** C7: with a heater entity configured, the task created by a recompute
    carries the mode "heat" when heating is demanded and "off" otherwise, and
    as target the leader's setpoint when heating is demanded and that
    setpoint is present, the minimum temperature otherwise.  The setpoint is
    the TRV's own: away with a TRV at 15 for 21 that reports heating, the
    command is 21 and "heat".  Without a heater entity no task is created. *)
Theorem heater_command (states : States) (self : binary_sensor.BinarySensor) :
  let r := fst (binary_sensor._async_update_heating_demand states self) in
  let task := snd (binary_sensor._async_update_heating_demand states self) in
  (truthy (binary_sensor._heater_entity_id self) = true ->
   task = Some
            (match binary_sensor.is_on r,
                   binary_sensor._max_demand_target_temperature r with
             | true, Some t => t
             | _, _ => binary_sensor._minimum_temperature self
             end,
             if binary_sensor.is_on r then "heat"%string else "off"%string))
  /\ (truthy (binary_sensor._heater_entity_id self) = false -> task = None)
  /\ binary_sensor._async_update_heating_demand samples.away_heating
       (samples.away_sensor_of ["climate.trv1"%string])
     = (binary_sensor.update_attributes samples.away_heating
          (samples.away_sensor_of ["climate.trv1"%string]),
        Some (21, "heat"%string)).
Proof.
  intros r task. subst r task. unfold binary_sensor._async_update_heating_demand.
  cbn [fst snd]. unfold binary_sensor.heater_task, binary_sensor.is_on.
  set (r := binary_sensor.update_attributes states self).
  assert (Hh : binary_sensor._heater_entity_id r = binary_sensor._heater_entity_id self)
    by reflexivity.
  assert (Hm : binary_sensor._minimum_temperature r
               = binary_sensor._minimum_temperature self) by reflexivity.
  rewrite Hh, Hm. split; [|split].
  - intros ->. destruct (binary_sensor._is_heating_demanded r); [|reflexivity].
    destruct (binary_sensor._max_demand_target_temperature r); reflexivity.
  - intros ->. reflexivity.
  - vm_compute. reflexivity.
Qed.

(** TRV 1 heating at 18 for 21, TRV 2 idle at 20 for 20: the heater is sent
    21 and "heat". *)
Lemma heater_command_witness :
  snd (binary_sensor._async_update_heating_demand samples.two_trvs
         (samples.sensor_of ["climate.trv1"; "climate.trv2"]%string))
  = Some (21, "heat"%string).
Proof.
  pose proof (heater_command samples.two_trvs
                (samples.sensor_of ["climate.trv1"; "climate.trv2"]%string)) as H.
  cbv zeta in H. destruct H as [H _].
  rewrite H; [vm_compute; reflexivity|reflexivity].
Defined.

Lemma opt_num_neb_false (last : option Q) (t : Q) :
  opt_num_neb last t = false <-> exists v, last = Some v /\ v == t.
Proof.
  destruct last as [v|]; cbn.
  - rewrite negb_false_iff, Qeq_bool_iff. split.
    + intros H. exists v. auto.
    + intros (v' & [= <-] & H). exact H.
  - split; [discriminate|]. intros (v & H & _). discriminate.
Qed.

Lemma opt_str_neb_false (last : option string) (s : string) :
  opt_str_neb last s = false <-> last = Some s.
Proof.
  unfold opt_str_neb. rewrite negb_false_iff. apply opt_str_eqb_true.
Qed.

(** What one dispatch sends and remembers. *)
Lemma dispatch_spec (services : Services) (self : binary_sensor.BinarySensor)
  (t : Q) (m : string) :
  let heater := binary_sensor._heater_entity_id self in
  let last_t := binary_sensor._last_sent_target_temperature self in
  let last_m := binary_sensor._last_sent_hvac_mode self in
  let self' := fst (binary_sensor._async_control_heater services self t m) in
  let calls := snd (binary_sensor._async_control_heater services self t m) in
  calls = ((if opt_num_neb last_t t then [set_temperature heater t] else [])
           ++ (if opt_str_neb last_m m then [set_hvac_mode heater m] else []))%list
  /\ binary_sensor._last_sent_target_temperature self'
     = (if opt_num_neb last_t t
        then match services (set_temperature heater t) with
             | Returned => Some t
             | Raised => last_t
             end
        else last_t)
  /\ binary_sensor._last_sent_hvac_mode self'
     = (if opt_str_neb last_m m
        then match services (set_hvac_mode heater m) with
             | Returned => Some m
             | Raised => last_m
             end
        else last_m)
  /\ binary_sensor._heater_entity_id self' = heater.
Proof.
  cbv zeta.
  unfold binary_sensor._async_control_heater, binary_sensor.control_temperature,
    binary_sensor.control_hvac_mode.
  destruct (opt_num_neb _ t); [destruct (services (set_temperature _ _))|];
    cbn; (destruct (opt_str_neb _ m); [destruct (services (set_hvac_mode _ _))|]);
    cbn; auto.
Qed.

(** C8, as stated: two dispatches in a row with the same command, the first
    of which has its [set_temperature] call raise; the second dispatch sends
    [set_temperature] again. *)
Lemma failed_dispatch_is_retried :
  ~ (forall (services services' : Services) (self : binary_sensor.BinarySensor)
       (t : Q) (m : string),
       snd (binary_sensor._async_control_heater services'
              (fst (binary_sensor._async_control_heater services self t m)) t m)
       = []).
Proof.
  intros H.
  specialize (H samples.temperature_fails samples.temperature_fails
                (samples.sensor_of ["climate.trv1"%string]) 21 "heat"%string).
  vm_compute in H. discriminate.
Qed.

(** C8, amended: a dispatch sends "set temperature" exactly when the target
    differs from the last one sent, then "set hvac mode" exactly when the
    mode differs from the last one sent, both in one pass when both differ;
    a call that returns updates the corresponding last-sent attribute to the
    commanded value and a call that raises leaves it as it was.  When every
    call of a dispatch returned, a second dispatch of the same command sends
    nothing. *)
Theorem debounced_dispatch (services services' : Services)
  (self : binary_sensor.BinarySensor) (t : Q) (m : string) :
  let heater := binary_sensor._heater_entity_id self in
  let last_t := binary_sensor._last_sent_target_temperature self in
  let last_m := binary_sensor._last_sent_hvac_mode self in
  let self' := fst (binary_sensor._async_control_heater services self t m) in
  let calls := snd (binary_sensor._async_control_heater services self t m) in
  calls = ((if opt_num_neb last_t t then [set_temperature heater t] else [])
           ++ (if opt_str_neb last_m m then [set_hvac_mode heater m] else []))%list
  /\ binary_sensor._last_sent_target_temperature self'
     = (if opt_num_neb last_t t
        then match services (set_temperature heater t) with
             | Returned => Some t
             | Raised => last_t
             end
        else last_t)
  /\ binary_sensor._last_sent_hvac_mode self'
     = (if opt_str_neb last_m m
        then match services (set_hvac_mode heater m) with
             | Returned => Some m
             | Raised => last_m
             end
        else last_m)
  /\ ((forall c, In c calls -> services c = Returned) ->
      snd (binary_sensor._async_control_heater services' self' t m) = []).
Proof.
  cbv zeta.
  destruct (dispatch_spec services self t m) as (Hcalls & Ht & Hm & Hh).
  cbv zeta in Hcalls, Ht, Hm, Hh.
  split; [exact Hcalls|]. split; [exact Ht|]. split; [exact Hm|].
  intros Hok.
  destruct (dispatch_spec services'
              (fst (binary_sensor._async_control_heater services self t m)) t m)
    as (Hcalls' & _).
  cbv zeta in Hcalls'. rewrite Hcalls', Ht, Hm.
  assert (Ht' : (if opt_num_neb (binary_sensor._last_sent_target_temperature self) t
                 then match services (set_temperature
                                        (binary_sensor._heater_entity_id self) t) with
                      | Returned => Some t
                      | Raised => binary_sensor._last_sent_target_temperature self
                      end
                 else binary_sensor._last_sent_target_temperature self)
                = Some t
                \/ opt_num_neb (binary_sensor._last_sent_target_temperature self) t
                   = false).
  { destruct (opt_num_neb _ t) eqn:E; [|right; reflexivity].
    rewrite (Hok (set_temperature (binary_sensor._heater_entity_id self) t)).
    - left. reflexivity.
    - rewrite Hcalls, ?E. left. reflexivity. }
  assert (Hm' : (if opt_str_neb (binary_sensor._last_sent_hvac_mode self) m
                 then match services (set_hvac_mode
                                        (binary_sensor._heater_entity_id self) m) with
                      | Returned => Some m
                      | Raised => binary_sensor._last_sent_hvac_mode self
                      end
                 else binary_sensor._last_sent_hvac_mode self)
                = Some m
                \/ opt_str_neb (binary_sensor._last_sent_hvac_mode self) m = false).
  { destruct (opt_str_neb _ m) eqn:E; [|right; reflexivity].
    rewrite (Hok (set_hvac_mode (binary_sensor._heater_entity_id self) m)).
    - left. reflexivity.
    - rewrite Hcalls, ?E. apply in_or_app. right. left. reflexivity. }
  assert (Ht2 : opt_num_neb (Some t) t = false).
  { apply opt_num_neb_false. exists t. split; [reflexivity|apply Qeq_refl]. }
  assert (Hm2 : opt_str_neb (Some m) m = false).
  { apply opt_str_neb_false. reflexivity. }
  destruct Ht' as [-> | Ht']; destruct Hm' as [-> | Hm'];
    rewrite ?Ht', ?Hm', ?Ht2, ?Hm2; reflexivity.
Qed.

(** Two dispatches of 21 and "heat" whose calls all return: the second sends
    nothing. *)
Lemma debounced_dispatch_witness :
  snd (binary_sensor._async_control_heater samples.all_good
         (fst (binary_sensor._async_control_heater samples.all_good
                 (samples.sensor_of ["climate.trv1"%string]) 21 "heat"%string))
         21 "heat"%string)
  = [].
Proof.
  pose proof (debounced_dispatch samples.all_good samples.all_good
                (samples.sensor_of ["climate.trv1"%string]) 21 "heat"%string) as H.
  cbv zeta in H. destruct H as (_ & _ & _ & H).
  apply H. intros c _. reflexivity.
Defined.

(** * Further properties *)

(** ** Demand of the binary sensor *)

Section binary_counter.

Import binary_sensor.

Variables (states : States) (is_away : bool) (away_temp : Q).

Local Abbreviation step := (trv_step states is_away away_temp).
Local Abbreviation loop := (trv_loop states is_away away_temp).

(** One iteration adds one to the counter when the entity's state meets the
    demand condition, and leaves the counter alone otherwise. *)
Lemma step_demanding_cases (l : Locals) (e : string) :
  (demanding_trvs (step l e) = (demanding_trvs l + 1)%Z
   /\ exists st, states !! e = Some st /\ binary_demand is_away away_temp st)
  \/ (demanding_trvs (step l e) = demanding_trvs l
      /\ forall st, states !! e = Some st -> ~ binary_demand is_away away_temp st).
Proof.
  unfold trv_step. destruct (states !! e) as [st|] eqn:Hst.
  2: { right. split; [reflexivity|]. intros st' [=]. }
  destruct (current_temperature st) as [cur|] eqn:Hc.
  2: { right. split; [reflexivity|].
       intros st' [= <-] (c & t & Hc' & _). congruence. }
  destruct (temperature st) as [tgt|] eqn:Ht.
  2: { right. split; [reflexivity|].
       intros st' [= <-] (c & t & _ & Ht' & _). congruence. }
  cbv zeta.
  set (delta := effective_target_temperature is_away away_temp tgt - cur).
  destruct (opt_str_eqb (hvac_action st) "heating"
            || String.eqb (state st) "heat" && Qgt_bool delta 0) eqn:Hb.
  - left. split; [destruct (Qgt_bool delta (max_delta l)); reflexivity|].
    exists st. split; [reflexivity|]. exists cur, tgt.
    split; [exact Hc|]. split; [exact Ht|].
    apply orb_true_iff in Hb. destruct Hb as [Hb|Hb].
    + left. apply opt_str_eqb_true. exact Hb.
    + right. apply andb_true_iff in Hb. destruct Hb as [Hs Hg].
      split; [apply String.eqb_eq, Hs|apply Qgt_bool_true, Hg].
  - right. split; [destruct (Qgt_bool delta (max_delta l)); reflexivity|].
    intros st' [= <-] (c & t & Hc' & Ht' & Hd).
    rewrite Hc in Hc'. rewrite Ht in Ht'.
    injection Hc' as <-. injection Ht' as <-. fold delta in Hd.
    apply orb_false_iff in Hb. destruct Hb as [Ha Hb].
    destruct Hd as [Hd|[Hs Hg]].
    + apply opt_str_eqb_true in Hd. congruence.
    + apply String.eqb_eq in Hs. apply Qgt_bool_true in Hg.
      rewrite Hs, Hg in Hb. discriminate.
Qed.

(** The loop raises the counter exactly when some listed entity's state meets
    the demand condition. *)
Lemma loop_demanding_iff (trvs : list string) (l : Locals) :
  (demanding_trvs l < demanding_trvs (loop trvs l))%Z
  <-> exists e st,
        In e trvs /\ states !! e = Some st /\ binary_demand is_away away_temp st.
Proof.
  revert l. induction trvs as [|e rest IH]; intros l.
  - rewrite loop_nil. split; [lia|]. intros (e & st & [] & _).
  - rewrite loop_cons.
    pose proof (loop_demanding_mono states is_away away_temp rest (step l e)) as Hmono.
    destruct (step_demanding_cases l e) as [[Heq (st & Hst & Hd)]|[Heq Hno]].
    + split; [|lia]. intros _. exists e, st. split; [left; reflexivity|auto].
    + rewrite <- Heq, IH. split.
      * intros (e' & st' & Hin & Hst' & Hd'). exists e', st'.
        split; [right; exact Hin|auto].
      * intros (e' & st' & [<-|Hin] & Hst' & Hd').
        -- exfalso. exact (Hno st' Hst' Hd').
        -- exists e', st'. auto.
Qed.

End binary_counter.

(** X1: the binary sensor is on after a recompute exactly when some
    configured TRV has a state with both temperatures present and either
    reports [hvac_action] "heating" or is in raw state "heat" with a positive
    delta against the effective target. *)
Theorem binary_sensor_on_iff (states : States) (self : binary_sensor.BinarySensor) :
  let r := fst (binary_sensor._async_update_heating_demand states self) in
  binary_sensor.is_on r = true
  <-> exists e st,
        In e (binary_sensor._trv_climate_entities self)
        /\ states !! e = Some st
        /\ binary_demand (binary_sensor._is_away r) (binary_sensor._away_temp self) st.
Proof.
  cbn. rewrite Z.ltb_lt.
  apply (loop_demanding_iff states _ _ _ binary_sensor.locals0).
Qed.

(** X2: whether the binary sensor is on depends on which TRVs are configured,
    not on their order nor on repetitions in the list. *)
Theorem binary_demand_ignores_order (states : States)
  (self1 self2 : binary_sensor.BinarySensor) :
  (forall x, In x (binary_sensor._trv_climate_entities self1)
             <-> In x (binary_sensor._trv_climate_entities self2)) ->
  binary_sensor._zone_entity_id self1 = binary_sensor._zone_entity_id self2 ->
  binary_sensor._away_temp self1 = binary_sensor._away_temp self2 ->
  binary_sensor.is_on (fst (binary_sensor._async_update_heating_demand states self1))
  = binary_sensor.is_on (fst (binary_sensor._async_update_heating_demand states self2)).
Proof.
  intros Hsame Hz Ha. cbn. rewrite Hz, Ha.
  set (away := binary_sensor.check_away states (binary_sensor._zone_entity_id self2)).
  set (t := binary_sensor._away_temp self2).
  pose proof (loop_demanding_iff states away t
                (binary_sensor._trv_climate_entities self1) binary_sensor.locals0) as H1.
  pose proof (loop_demanding_iff states away t
                (binary_sensor._trv_climate_entities self2) binary_sensor.locals0) as H2.
  apply eq_true_iff_eq. rewrite !Z.ltb_lt. cbn in H1, H2. rewrite H1, H2.
  split; intros (e & st & Hin & H); exists e, st; (split; [apply Hsame, Hin|exact H]).
Qed.

(** The same two TRVs, listed as A, B and as B, A, A. *)
Lemma binary_demand_ignores_order_witness :
  binary_sensor.is_on
    (fst (binary_sensor._async_update_heating_demand samples.ab
            (samples.sensor_of ["climate.a"; "climate.b"]%string)))
  = binary_sensor.is_on
      (fst (binary_sensor._async_update_heating_demand samples.ab
              (samples.sensor_of ["climate.b"; "climate.a"; "climate.a"]%string))).
Proof.
  apply (binary_demand_ignores_order samples.ab
           (samples.sensor_of ["climate.a"; "climate.b"]%string)
           (samples.sensor_of ["climate.b"; "climate.a"; "climate.a"]%string)).
  - intros x. cbn. tauto.
  - reflexivity.
  - reflexivity.
Defined.

(** ** The reported leader *)

Lemma py_max_cases (x : Q) :
  (py_max 0 x = x /\ 0 < x) \/ (py_max 0 x = 0 /\ x <= 0).
Proof.
  unfold py_max. destruct (Qgt_bool x 0) eqn:E.
  - left. split; [reflexivity|apply Qgt_bool_true, E].
  - right. split; [reflexivity|apply Qgt_bool_false, E].
Qed.

(** What the loop hands to the attributes: without a usable leader nothing,
    otherwise one configured entity together with the readings of its
    state. *)
Lemma loop_leader_cases (states : States) (is_away : bool) (away_temp : Q)
  (trvs : list string) :
  let l := binary_sensor.trv_loop states is_away away_temp trvs
             binary_sensor.locals0 in
  binary_sensor.valid_trv_found l && truthy (binary_sensor.leader_entity_id l) = false
  \/ (binary_sensor.valid_trv_found l && truthy (binary_sensor.leader_entity_id l) = true
      /\ exists e st cur tgt,
           In e trvs /\ e <> ""%string /\ states !! e = Some st
           /\ current_temperature st = Some cur /\ temperature st = Some tgt
           /\ binary_sensor.leader_entity_id l = Some e
           /\ binary_sensor.leader_current_temp l = Some cur
           /\ binary_sensor.leader_target_temp l = Some tgt
           /\ binary_sensor.leader_friendly_name l = friendly_name st
           /\ binary_sensor.max_delta l
              = binary_sensor.effective_target_temperature is_away away_temp tgt - cur).
Proof.
  intros l.
  destruct (binary_sensor.valid_trv_found l
            && truthy (binary_sensor.leader_entity_id l)) eqn:Hfound;
    [right|left; reflexivity].
  split; [reflexivity|].
  apply andb_true_iff in Hfound. destruct Hfound as [_ Htruthy].
  apply truthy_true in Htruthy. destruct Htruthy as (e & He & Hne).
  pose proof (loop_leader_of_store states is_away away_temp trvs
                binary_sensor.locals0) as Hstore.
  fold l in Hstore. unfold leader_of_store in Hstore. rewrite He in Hstore.
  destruct Hstore as [_ (st & cur & tgt & Hst & Hc & Ht & Hlc & Hlt & Hln)].
  { cbn. auto. }
  destruct (leader_characterisation states is_away away_temp trvs) as [Hsome _].
  destruct (Hsome e He) as (before & after & d & Htrvs & Hd & Hm & _).
  exists e, st, cur, tgt.
  split; [rewrite Htrvs; apply in_or_app; right; left; reflexivity|].
  unfold delta_at in Hd. rewrite Hst, Hc, Ht in Hd. injection Hd as Hd.
  fold l in Hm. rewrite Hm, <- Hd. auto 10.
Qed.

(** X3: the leader attributes are coherent.  After a recompute either all of
    them are reset (delta 0, the rest unset), or they describe one configured
    TRV: its entity id, the current temperature, own setpoint and friendly
    name of its state, and as delta the effective target minus the current
    temperature, clamped at zero. *)
Theorem leader_attributes_coherent (states : States)
  (self : binary_sensor.BinarySensor) :
  let r := fst (binary_sensor._async_update_heating_demand states self) in
  (binary_sensor._max_demand_trv_entity_id r = None
   /\ binary_sensor._max_demand_delta r = 0
   /\ binary_sensor._max_demand_current_temperature r = None
   /\ binary_sensor._max_demand_target_temperature r = None
   /\ binary_sensor._max_demand_trv_name r = None)
  \/ exists e st cur tgt,
       In e (binary_sensor._trv_climate_entities self)
       /\ states !! e = Some st
       /\ current_temperature st = Some cur /\ temperature st = Some tgt
       /\ binary_sensor._max_demand_trv_entity_id r = Some e
       /\ binary_sensor._max_demand_current_temperature r = Some cur
       /\ binary_sensor._max_demand_target_temperature r = Some tgt
       /\ binary_sensor._max_demand_trv_name r = friendly_name st
       /\ binary_sensor._max_demand_delta r
          = py_max 0 (binary_sensor.effective_target_temperature
                        (binary_sensor._is_away r) (binary_sensor._away_temp self) tgt
                      - cur).
Proof.
  cbn.
  destruct (loop_leader_cases states
              (binary_sensor.check_away states (binary_sensor._zone_entity_id self))
              (binary_sensor._away_temp self)
              (binary_sensor._trv_climate_entities self))
    as [Hno|[Hyes (e & st & cur & tgt & Hin & Hne & Hst & Hc & Ht & Hi & Hlc & Hlt
                   & Hln & Hm)]]; cbv zeta in *.
  - rewrite Hno. left. auto.
  - rewrite Hyes. right. exists e, st, cur, tgt. rewrite Hm. auto 10.
Qed.

(** X4: when no configured entity id is empty, the reported
    [max_demand_delta] is the largest delta of the valid TRVs clamped at
    zero: no valid TRV has a larger delta, and the reported value is zero or
    the delta of a configured TRV. *)
Theorem max_demand_delta_is_clamped_maximum (states : States)
  (self : binary_sensor.BinarySensor) :
  ~ In ""%string (binary_sensor._trv_climate_entities self) ->
  let r := fst (binary_sensor._async_update_heating_demand states self) in
  let delta := delta_at states (binary_sensor._is_away r)
                 (binary_sensor._away_temp self) in
  (forall x dx, In x (binary_sensor._trv_climate_entities self) ->
     delta x = Some dx -> dx <= binary_sensor._max_demand_delta r)
  /\ (binary_sensor._max_demand_delta r = 0
      \/ exists x, In x (binary_sensor._trv_climate_entities self)
                   /\ delta x = Some (binary_sensor._max_demand_delta r)).
Proof.
  intros Hne. cbn.
  set (away := binary_sensor.check_away states (binary_sensor._zone_entity_id self)).
  set (t := binary_sensor._away_temp self).
  set (trvs := binary_sensor._trv_climate_entities self) in *.
  destruct (loop_invariant states away t trvs) as (Hlow & Hub & Hlead).
  destruct (leader_characterisation states away t trvs) as [Hsome Hnone].
  pose proof (loop_leader_of_store states away t trvs binary_sensor.locals0) as Hstore.
  cbv zeta in *.
  set (l := binary_sensor.trv_loop states away t trvs binary_sensor.locals0) in *.
  unfold leader_of_store in Hstore.
  destruct (binary_sensor.leader_entity_id l) as [e|] eqn:He.
  - destruct Hstore as [Hv _]; [cbn; auto|].
    destruct (Hsome e eq_refl) as (before & after & d & Htrvs & Hd & Hm & _).
    assert (Hin : In e trvs).
    { rewrite Htrvs. apply in_or_app. right. left. reflexivity. }
    assert (Ht : truthy (Some e) = true).
    { apply truthy_true. exists e. split; [reflexivity|]. intros ->. auto. }
    rewrite Hv, Ht. cbn.
    destruct (py_max_cases (binary_sensor.max_delta l)) as [[-> Hpos]|[-> Hneg]].
    + split; [exact Hub|]. right. exists e. rewrite Hm. auto.
    + split; [|left; reflexivity].
      intros x dx Hx Hdx. apply Qle_trans with (binary_sensor.max_delta l); eauto.
  - rewrite andb_false_r. split; [|left; reflexivity].
    intros x dx Hx Hdx. apply Qle_trans with (-100).
    + exact (proj1 Hnone eq_refl x dx Hx Hdx).
    + discriminate.
Qed.

(** Deltas 2, 2, 3 for A, B, C: the delta 2 of A is below the reported one. *)
Lemma max_demand_delta_is_clamped_maximum_witness :
  2 <= binary_sensor._max_demand_delta
         (fst (binary_sensor._async_update_heating_demand samples.abc
                 (samples.sensor_of ["climate.a"; "climate.b"; "climate.c"]%string))).
Proof.
  apply (proj1 (max_demand_delta_is_clamped_maximum samples.abc
                  (samples.sensor_of ["climate.a"; "climate.b"; "climate.c"]%string)
                  ltac:(cbn; intros [H|[H|[H|[]]]]; discriminate))
           "climate.a"%string 2).
  - left. reflexivity.
  - vm_compute. reflexivity.
Defined.

(** ** Away mode: demand and leader *)

(** C6: after a recompute the away flag is set exactly when a zone entity id
    is configured (present and not empty), that entity has a state and its
    state string is "0".  When it is set, the loop's delta of every valid TRV
    is the away temperature minus its current temperature, the TRV's own
    setpoint playing no part:
    - the sensor is on exactly when some configured valid TRV reports
      heating, or is in state "heat" with the away temperature above its
      current temperature;
    - a reported leader is a configured valid TRV, the reported delta is
      [max(0, away_temp - current)] of that TRV, no valid TRV has a larger
      [away_temp - current], and the reported target stays the leader's own
      setpoint;
    - a leader is reported as soon as some valid TRV has
      [away_temp - current] above -100 and no configured id is empty;
    - demand, reported delta and leader are those of a sensor without zone
      entity run on states whose setpoints are all replaced by the away
      temperature. *)
Theorem away_mode_uses_away_temp (states : States)
  (self : binary_sensor.BinarySensor) :
  let r := fst (binary_sensor._async_update_heating_demand states self) in
  let away_temp := binary_sensor._away_temp self in
  let trvs := binary_sensor._trv_climate_entities self in
  (binary_sensor._is_away r = true
   <-> exists z zone_state,
         binary_sensor._zone_entity_id self = Some z /\ z <> ""%string
         /\ states !! z = Some zone_state /\ state zone_state = "0"%string)
  /\ (binary_sensor._is_away r = true ->
      (binary_sensor.is_on r = true
       <-> exists e st cur tgt,
             In e trvs /\ states !! e = Some st
             /\ current_temperature st = Some cur /\ temperature st = Some tgt
             /\ (hvac_action st = Some "heating"%string
                 \/ (state st = "heat"%string /\ 0 < away_temp - cur)))
      /\ (forall e,
            binary_sensor._max_demand_trv_entity_id r = Some e ->
            exists st cur tgt,
              In e trvs /\ states !! e = Some st
              /\ current_temperature st = Some cur /\ temperature st = Some tgt
              /\ binary_sensor._max_demand_delta r = py_max 0 (away_temp - cur)
              /\ binary_sensor._max_demand_current_temperature r = Some cur
              /\ binary_sensor._max_demand_target_temperature r = Some tgt
              /\ forall x st' cur' tgt',
                   In x trvs -> states !! x = Some st' ->
                   current_temperature st' = Some cur' ->
                   temperature st' = Some tgt' ->
                   away_temp - cur' <= away_temp - cur)
      /\ (forall x st' cur' tgt',
            In x trvs -> states !! x = Some st' ->
            current_temperature st' = Some cur' -> temperature st' = Some tgt' ->
            -100 < away_temp - cur' ->
            ~ In ""%string trvs ->
            exists e, binary_sensor._max_demand_trv_entity_id r = Some e)
      /\ let r' := fst (binary_sensor._async_update_heating_demand
                          (with_setpoint away_temp <$> states) (without_zone self)) in
         binary_sensor._is_away r' = false
         /\ binary_sensor._is_heating_demanded r = binary_sensor._is_heating_demanded r'
         /\ binary_sensor._max_demand_delta r = binary_sensor._max_demand_delta r'
         /\ binary_sensor._max_demand_trv_entity_id r
            = binary_sensor._max_demand_trv_entity_id r'
         /\ binary_sensor._max_demand_current_temperature r
            = binary_sensor._max_demand_current_temperature r'
         /\ binary_sensor._max_demand_trv_name r = binary_sensor._max_demand_trv_name r').
Proof.
  intros r away_temp trvs. subst r.
  cbn [fst binary_sensor._async_update_heating_demand].
  split; [cbn; apply check_away_true|].
  intros Haway. cbn in Haway.
  split; [|split; [|split]].
  - cbn. rewrite Haway, Z.ltb_lt.
    pose proof (loop_demanding_iff states true away_temp trvs binary_sensor.locals0)
      as H.
    cbn in H. fold away_temp trvs. rewrite H. unfold binary_demand. cbn. split.
    + intros (e & st & Hin & Hst & cur & tgt & Hc & Ht & Hd).
      exists e, st, cur, tgt. auto 6.
    + intros (e & st & cur & tgt & Hin & Hst & Hc & Ht & Hd).
      exists e, st. split; [exact Hin|]. split; [exact Hst|].
      exists cur, tgt. auto.
  - intros e. cbn. rewrite Haway. fold away_temp trvs.
    destruct (loop_leader_cases states true away_temp trvs)
      as [Hno|[Hyes (e0 & st & cur & tgt & Hin & Hne & Hst & Hc & Ht & Hi & Hlc
                     & Hlt & Hln & Hm)]]; cbv zeta in *.
    + rewrite Hno. discriminate.
    + rewrite Hyes, Hi, Hlc, Hlt, Hm. intros [= <-].
      exists st, cur, tgt. cbn. repeat (split; [first [assumption|reflexivity]|]).
      intros x st' cur' tgt' Hx Hst' Hc' Ht'.
      destruct (loop_invariant states true away_temp trvs) as (_ & Hub & _).
      cbv zeta in Hub. specialize (Hub x (away_temp - cur') Hx).
      rewrite Hm in Hub. apply Hub.
      unfold delta_at. rewrite Hst', Hc', Ht'. reflexivity.
  - intros x st' cur' tgt' Hx Hst' Hc' Ht' Hgt Hempty.
    pose proof (leader_reported_above_threshold states self x (away_temp - cur'))
      as H.
    cbv zeta in H. rewrite Haway in H.
    destruct H as (e & st & cur & tgt & d & _ & _ & _ & _ & _ & _ & _ & _ & Hid & _);
      try assumption.
    { unfold delta_at. rewrite Hst', Hc', Ht'. reflexivity. }
    exists e. exact Hid.
  - unfold binary_sensor.update_attributes. rewrite Haway. cbn.
    pose proof (loop_away_as_setpoint states away_temp trvs
                  binary_sensor.locals0 binary_sensor.locals0 eq_refl) as H.
    fold away_temp trvs.
    destruct (binary_sensor.trv_loop states true away_temp _ _) as [n m i c t f v].
    destruct (binary_sensor.trv_loop (with_setpoint away_temp <$> states) false
                away_temp _ _) as [n' m' i' c' t' f' v'].
    unfold forget_target in H. cbn in H. injection H as -> -> -> -> -> ->.
    cbn. destruct (v' && truthy i'); auto 6.
Qed.

(** Zone state "0", away temperature 12, a TRV in state "heat" at 10 with
    setpoint 5: the sensor is on, since 12 - 10 is positive, although the
    TRV's own setpoint is below its current temperature. *)
Lemma away_mode_uses_away_temp_witness :
  binary_sensor.is_on
    (fst (binary_sensor._async_update_heating_demand samples.away_cold
            (samples.away_sensor_of ["climate.trv1"%string])))
  = true.
Proof.
  pose proof (away_mode_uses_away_temp samples.away_cold
                (samples.away_sensor_of ["climate.trv1"%string])) as H.
  cbv zeta in H. destruct H as [_ H].
  destruct H as (H & _); [vm_compute; reflexivity|].
  apply H.
  exists "climate.trv1"%string, (samples.trv "heat" "idle" 10 5 "TRV 1"), 10, 5.
  split; [left; reflexivity|].
  split; [vm_compute; reflexivity|].
  split; [reflexivity|]. split; [reflexivity|].
  right. split; reflexivity.
Defined.

(** A reported target temperature is the own setpoint of a configured TRV. *)
Lemma reported_target_is_setpoint (states : States)
  (self : binary_sensor.BinarySensor) (t : Q) :
  binary_sensor._max_demand_target_temperature
    (binary_sensor.update_attributes states self) = Some t ->
  exists e st, In e (binary_sensor._trv_climate_entities self)
               /\ states !! e = Some st /\ temperature st = Some t.
Proof.
  cbn.
  destruct (loop_leader_cases states
              (binary_sensor.check_away states (binary_sensor._zone_entity_id self))
              (binary_sensor._away_temp self)
              (binary_sensor._trv_climate_entities self))
    as [Hno|[Hyes (e & st & cur & tgt & Hin & _ & Hst & _ & Ht & _ & _ & Hlt & _)]];
    cbv zeta in *.
  - rewrite Hno. discriminate.
  - rewrite Hyes, Hlt. intros [= <-]. exists e, st. auto.
Qed.

(** X5: the heater is only ever sent "off" with the minimum temperature, or
    "heat" with either the minimum temperature or the own setpoint of a
    configured TRV; "heat" is sent exactly when the sensor is on. *)
Theorem heater_target_provenance (states : States)
  (self : binary_sensor.BinarySensor) (t : Q) (m : string) :
  snd (binary_sensor._async_update_heating_demand states self) = Some (t, m) ->
  let r := fst (binary_sensor._async_update_heating_demand states self) in
  (m = "off"%string /\ t = binary_sensor._minimum_temperature self
   /\ binary_sensor.is_on r = false)
  \/ (m = "heat"%string /\ binary_sensor.is_on r = true
      /\ (t = binary_sensor._minimum_temperature self
          \/ exists e st, In e (binary_sensor._trv_climate_entities self)
                          /\ states !! e = Some st /\ temperature st = Some t)).
Proof.
  unfold binary_sensor._async_update_heating_demand. cbn [fst snd].
  unfold binary_sensor.heater_task, binary_sensor.is_on.
  set (r := binary_sensor.update_attributes states self).
  assert (Hmin : binary_sensor._minimum_temperature r
                 = binary_sensor._minimum_temperature self) by reflexivity.
  rewrite Hmin. destruct (truthy _); [|discriminate].
  destruct (binary_sensor._is_heating_demanded r).
  - destruct (binary_sensor._max_demand_target_temperature r) as [t'|] eqn:Ht;
      intros [= <- <-]; right; (split; [reflexivity|]); (split; [reflexivity|]).
    + right. exact (reported_target_is_setpoint states self t' Ht).
    + left. reflexivity.
  - intros [= <- <-]. left. auto.
Qed.

(** TRV 1 heating at 18 for 21: the heater is sent "heat" and 21, the
    setpoint of TRV 1. *)
Lemma heater_target_provenance_witness :
  exists e st, In e ["climate.trv1"; "climate.trv2"]%string
               /\ samples.two_trvs !! e = Some st /\ temperature st = Some 21.
Proof.
  destruct (heater_target_provenance samples.two_trvs
              (samples.sensor_of ["climate.trv1"; "climate.trv2"]%string)
              21 "heat"%string)
    as [(H & _)|(_ & _ & [H|H])].
  - vm_compute. reflexivity.
  - discriminate.
  - discriminate.
  - exact H.
Defined.

(** X6: when no configured TRV has a state with both temperatures (the list
    is empty, entities are missing, or readings are incomplete), the sensor
    is off, every leader attribute is reset and a configured heater is sent
    "off" with the minimum temperature, whatever the TRVs report as
    [hvac_action]. *)
Theorem no_valid_trv_means_off (states : States)
  (self : binary_sensor.BinarySensor) :
  (forall x st, In x (binary_sensor._trv_climate_entities self) ->
     states !! x = Some st ->
     current_temperature st = None \/ temperature st = None) ->
  let r := fst (binary_sensor._async_update_heating_demand states self) in
  binary_sensor.is_on r = false
  /\ binary_sensor._max_demand_delta r = 0
  /\ binary_sensor._max_demand_current_temperature r = None
  /\ binary_sensor._max_demand_target_temperature r = None
  /\ binary_sensor._max_demand_trv_entity_id r = None
  /\ binary_sensor._max_demand_trv_name r = None
  /\ snd (binary_sensor._async_update_heating_demand states self)
     = (if truthy (binary_sensor._heater_entity_id self)
        then Some (binary_sensor._minimum_temperature self, "off"%string)
        else None).
Proof.
  intros Hall.
  destruct (leader_reset_without_valid_trv states self) as (Hon & Hd & Hc & Ht & Hi & Hn).
  { intros x Hin. unfold delta_at.
    destruct (states !! x) as [st|] eqn:Hst; [|reflexivity].
    destruct (Hall x st Hin Hst) as [-> | ->]; [reflexivity|].
    destruct (current_temperature st); reflexivity. }
  cbv zeta. unfold binary_sensor._async_update_heating_demand. cbn [fst snd].
  unfold binary_sensor.is_on, binary_sensor.heater_task.
  rewrite Hon, Hd, Hc, Ht, Hi, Hn. repeat (split; [reflexivity|]).
  reflexivity.
Qed.

(** A TRV that reports heating but has no current temperature. *)
Lemma no_valid_trv_means_off_witness :
  snd (binary_sensor._async_update_heating_demand samples.heating_no_reading
         (samples.sensor_of ["climate.trv1"%string]))
  = Some (5, "off"%string).
Proof.
  apply (no_valid_trv_means_off samples.heating_no_reading
           (samples.sensor_of ["climate.trv1"%string])).
  intros x st [<-|[]] Hst. vm_compute in Hst. injection Hst as <-.
  left. reflexivity.
Defined.

(** X7: a recompute is stateless.  Two sensors with the same configuration
    report the same attributes and create the same heater task from the same
    states, whatever they reported before; and a recompute changes neither
    the configuration nor what was last sent to the heater. *)
Theorem recompute_is_stateless (states : States)
  (self1 self2 : binary_sensor.BinarySensor) :
  binary_sensor._trv_climate_entities self1 = binary_sensor._trv_climate_entities self2 ->
  binary_sensor._heater_entity_id self1 = binary_sensor._heater_entity_id self2 ->
  binary_sensor._minimum_temperature self1 = binary_sensor._minimum_temperature self2 ->
  binary_sensor._away_temp self1 = binary_sensor._away_temp self2 ->
  binary_sensor._zone_entity_id self1 = binary_sensor._zone_entity_id self2 ->
  let r1 := fst (binary_sensor._async_update_heating_demand states self1) in
  let r2 := fst (binary_sensor._async_update_heating_demand states self2) in
  (binary_sensor._is_heating_demanded r1 = binary_sensor._is_heating_demanded r2
   /\ binary_sensor._max_demand_delta r1 = binary_sensor._max_demand_delta r2
   /\ binary_sensor._max_demand_current_temperature r1
      = binary_sensor._max_demand_current_temperature r2
   /\ binary_sensor._max_demand_target_temperature r1
      = binary_sensor._max_demand_target_temperature r2
   /\ binary_sensor._max_demand_trv_entity_id r1
      = binary_sensor._max_demand_trv_entity_id r2
   /\ binary_sensor._max_demand_trv_name r1 = binary_sensor._max_demand_trv_name r2
   /\ binary_sensor._is_away r1 = binary_sensor._is_away r2
   /\ snd (binary_sensor._async_update_heating_demand states self1)
      = snd (binary_sensor._async_update_heating_demand states self2))
  /\ (binary_sensor._trv_climate_entities r1 = binary_sensor._trv_climate_entities self1
      /\ binary_sensor._heater_entity_id r1 = binary_sensor._heater_entity_id self1
      /\ binary_sensor._minimum_temperature r1 = binary_sensor._minimum_temperature self1
      /\ binary_sensor._away_temp r1 = binary_sensor._away_temp self1
      /\ binary_sensor._zone_entity_id r1 = binary_sensor._zone_entity_id self1
      /\ binary_sensor._last_sent_target_temperature r1
         = binary_sensor._last_sent_target_temperature self1
      /\ binary_sensor._last_sent_hvac_mode r1 = binary_sensor._last_sent_hvac_mode self1).
Proof.
  intros Ht Hh Hm Ha Hz. cbn.
  unfold binary_sensor.heater_task. cbn.
  rewrite Ht, Hh, Hm, Ha, Hz. repeat split; reflexivity.
Qed.

(** A fresh sensor and one that has already seen the away installation. *)
Lemma recompute_is_stateless_witness :
  binary_sensor._max_demand_trv_entity_id
    (fst (binary_sensor._async_update_heating_demand samples.two_trvs
            (samples.away_sensor_of ["climate.trv1"%string])))
  = binary_sensor._max_demand_trv_entity_id
      (fst (binary_sensor._async_update_heating_demand samples.two_trvs
              (fst (binary_sensor._async_update_heating_demand samples.away_heating
                      (samples.away_sensor_of ["climate.trv1"%string]))))).
Proof.
  apply (recompute_is_stateless samples.two_trvs
           (samples.away_sensor_of ["climate.trv1"%string])
           (fst (binary_sensor._async_update_heating_demand samples.away_heating
                   (samples.away_sensor_of ["climate.trv1"%string])))
           eq_refl eq_refl eq_refl eq_refl eq_refl).
Defined.

(** ** The two sensors side by side *)

Lemma sensor_demanded_iff (states : States) (trvs : list string) :
  (0 <? sensor.trv_loop states trvs 0)%Z = true
  <-> exists e st, In e trvs /\ states !! e = Some st /\ plain_demand st.
Proof.
  destruct (sensor_loop_spec states trvs 0) as [[-> (e & st & Hin & Hl & Hd)]|[-> Hall]].
  - split; [|reflexivity]. intros _. exists e, st. rewrite <- demands_iff. auto.
  - split; [discriminate|]. intros (e & st & Hin & Hl & Hd).
    apply demands_iff in Hd. rewrite (Hall e st Hin Hl) in Hd. discriminate.
Qed.

Lemma sensor_state_on (self : sensor.Sensor) :
  sensor.state self = "on"%string <-> sensor._is_heating_demanded self = true.
Proof.
  unfold sensor.state. destruct (sensor._is_heating_demanded self);
    split; (reflexivity || discriminate).
Qed.

(** X8: the two variants compared on the same TRV list and the same states,
    when the binary sensor is not away.  Whenever the binary sensor is on,
    the plain sensor is "on"; and the plain sensor being "on" makes the binary
    sensor on provided every configured TRV that reports heating has both of
    its temperatures. *)
Theorem binary_and_plain_agree_when_home (states : States)
  (self : binary_sensor.BinarySensor) (plain : sensor.Sensor) :
  sensor._trv_climate_entities plain = binary_sensor._trv_climate_entities self ->
  binary_sensor._is_away (fst (binary_sensor._async_update_heating_demand states self))
  = false ->
  let b := binary_sensor.is_on
             (fst (binary_sensor._async_update_heating_demand states self)) in
  let p := sensor.state (sensor._async_update_heating_demand states plain) in
  (b = true -> p = "on"%string)
  /\ ((forall e st, In e (binary_sensor._trv_climate_entities self) ->
         states !! e = Some st -> hvac_action st = Some "heating"%string ->
         current_temperature st <> None /\ temperature st <> None) ->
      p = "on"%string -> b = true).
Proof.
  intros Htrvs Haway. cbn in Haway. cbn zeta.
  rewrite sensor_state_on. cbn. rewrite Htrvs, Haway, sensor_demanded_iff.
  rewrite Z.ltb_lt.
  pose proof (loop_demanding_iff states false (binary_sensor._away_temp self)
                (binary_sensor._trv_climate_entities self) binary_sensor.locals0) as H.
  cbn in H. rewrite H. clear H. split.
  - intros (e & st & Hin & Hst & cur & tgt & Hc & Ht & Hd). exists e, st.
    split; [exact Hin|]. split; [exact Hst|].
    destruct Hd as [Ha|[Hs Hd]]; [left; exact Ha|right].
    split; [exact Hs|]. exists cur, tgt. split; [exact Hc|]. split; [exact Ht|].
    apply Qlt_minus_iff. exact Hd.
  - intros Hheating (e & st & Hin & Hst & Hd). exists e, st.
    split; [exact Hin|]. split; [exact Hst|].
    destruct Hd as [Ha|(Hs & cur & tgt & Hc & Ht & Hlt)].
    + destruct (Hheating e st Hin Hst Ha) as [Hc Ht].
      destruct (current_temperature st) as [cur|] eqn:Ec; [|congruence].
      destruct (temperature st) as [tgt|] eqn:Et; [|congruence].
      exists cur, tgt. auto.
    + exists cur, tgt. split; [exact Hc|]. split; [exact Ht|]. right.
      split; [exact Hs|]. apply Qlt_minus_iff in Hlt. exact Hlt.
Qed.

(** TRV 1 heating at 18 for 21, TRV 2 idle: both sensors are on. *)
Lemma binary_and_plain_agree_when_home_witness :
  sensor.state (sensor._async_update_heating_demand samples.two_trvs
                  (sensor.init ["climate.trv1"; "climate.trv2"]%string))
  = "on"%string.
Proof.
  apply (binary_and_plain_agree_when_home samples.two_trvs
           (samples.sensor_of ["climate.trv1"; "climate.trv2"]%string)
           (sensor.init ["climate.trv1"; "climate.trv2"]%string)).
  - reflexivity.
  - vm_compute. reflexivity.
  - vm_compute. reflexivity.
Defined.

(** X9: the plain sensor's state depends on which TRVs are configured, not on
    their order nor on repetitions, although its loop stops at the first
    demanding TRV. *)
Theorem plain_demand_ignores_order (states : States) (self1 self2 : sensor.Sensor) :
  (forall x, In x (sensor._trv_climate_entities self1)
             <-> In x (sensor._trv_climate_entities self2)) ->
  sensor.state (sensor._async_update_heating_demand states self1)
  = sensor.state (sensor._async_update_heating_demand states self2).
Proof.
  intros Hsame. unfold sensor.state.
  assert (H : sensor._is_heating_demanded (sensor._async_update_heating_demand states self1)
              = sensor._is_heating_demanded
                  (sensor._async_update_heating_demand states self2)).
  { cbn. apply eq_true_iff_eq. rewrite !sensor_demanded_iff.
    split; intros (e & st & Hin & H); exists e, st;
      (split; [apply Hsame, Hin|exact H]). }
  rewrite H. reflexivity.
Qed.

(** A, B against B, A, A. *)
Lemma plain_demand_ignores_order_witness :
  sensor.state (sensor._async_update_heating_demand samples.ab
                  (sensor.init ["climate.a"; "climate.b"]%string))
  = sensor.state (sensor._async_update_heating_demand samples.ab
                    (sensor.init ["climate.b"; "climate.a"; "climate.a"]%string)).
Proof.
  apply (plain_demand_ignores_order samples.ab
           (sensor.init ["climate.a"; "climate.b"]%string)
           (sensor.init ["climate.b"; "climate.a"; "climate.a"]%string)).
  intros x. cbn. tauto.
Defined.

(** ** Recompute and dispatch together *)

(** X10: a recompute and a dispatch touch disjoint attributes, so the order
    in which a recompute and the run of an earlier task happen does not
    matter: either order gives the same sensor and the same outbound
    calls. *)
Theorem recompute_and_dispatch_commute (services : Services) (states : States)
  (self : binary_sensor.BinarySensor) (t : Q) (m : string) :
  binary_sensor.update_attributes states
    (fst (binary_sensor._async_control_heater services self t m))
  = fst (binary_sensor._async_control_heater services
           (binary_sensor.update_attributes states self) t m)
  /\ snd (binary_sensor._async_control_heater services self t m)
     = snd (binary_sensor._async_control_heater services
              (binary_sensor.update_attributes states self) t m).
Proof.
  unfold binary_sensor._async_control_heater, binary_sensor.control_temperature,
    binary_sensor.control_hvac_mode.
  cbn [binary_sensor.update_attributes binary_sensor._last_sent_target_temperature
       binary_sensor._last_sent_hvac_mode binary_sensor._heater_entity_id].
  destruct (opt_num_neb _ t); [destruct (services (set_temperature _ _))|];
    cbn; (destruct (opt_str_neb _ m); [destruct (services (set_hvac_mode _ _))|]);
    cbn; split; reflexivity.
Qed.

Lemma update_attributes_idempotent (states : States)
  (self : binary_sensor.BinarySensor) :
  binary_sensor.update_attributes states (binary_sensor.update_attributes states self)
  = binary_sensor.update_attributes states self.
Proof. reflexivity. Qed.

(** A dispatch does not change the task the next recompute would create. *)
Lemma dispatch_keeps_heater_task (services : Services)
  (self : binary_sensor.BinarySensor) (t : Q) (m : string) :
  binary_sensor.heater_task
    (fst (binary_sensor._async_control_heater services self t m))
  = binary_sensor.heater_task self.
Proof.
  unfold binary_sensor._async_control_heater, binary_sensor.control_temperature,
    binary_sensor.control_hvac_mode.
  destruct (opt_num_neb _ t); [destruct (services (set_temperature _ _))|];
    cbn; (destruct (opt_str_neb _ m); [destruct (services (set_hvac_mode _ _))|]);
    reflexivity.
Qed.

Lemma opt_num_neb_same (t : Q) : opt_num_neb (Some t) t = false.
Proof. apply opt_num_neb_false. exists t. split; [reflexivity|apply Qeq_refl]. Qed.

Lemma opt_str_neb_same (m : string) : opt_str_neb (Some m) m = false.
Proof. apply opt_str_neb_false. reflexivity. Qed.

(** After a dispatch whose calls all returned, the same command differs
    from neither of the two last-sent attributes. *)
Lemma dispatch_settled (services : Services) (self : binary_sensor.BinarySensor)
  (t : Q) (m : string) :
  (forall c, In c (snd (binary_sensor._async_control_heater services self t m)) ->
     services c = Returned) ->
  let self' := fst (binary_sensor._async_control_heater services self t m) in
  opt_num_neb (binary_sensor._last_sent_target_temperature self') t = false
  /\ opt_str_neb (binary_sensor._last_sent_hvac_mode self') m = false.
Proof.
  destruct (dispatch_spec services self t m) as (Hcalls & Ht & Hm & _).
  cbv zeta in *. intros Hok. rewrite Ht, Hm. split.
  - destruct (opt_num_neb _ t) eqn:E; [|exact E].
    rewrite (Hok (set_temperature (binary_sensor._heater_entity_id self) t)).
    + apply opt_num_neb_same.
    + rewrite Hcalls. left. reflexivity.
  - destruct (opt_str_neb _ m) eqn:E; [|exact E].
    rewrite (Hok (set_hvac_mode (binary_sensor._heater_entity_id self) m)).
    + apply opt_str_neb_same.
    + rewrite Hcalls. apply in_or_app. right. left. reflexivity.
Qed.

(** X11: debounce from end to end.  When the calls made by a recompute and
    its task all returned, a second recompute on the same states makes no
    outbound call, whatever the services would do then. *)
Theorem second_pass_is_silent (services services' : Services) (states : States)
  (self : binary_sensor.BinarySensor) :
  (forall c, In c (snd (binary_sensor.update_and_control services states self)) ->
     services c = Returned) ->
  snd (binary_sensor.update_and_control services' states
         (fst (binary_sensor.update_and_control services states self)))
  = [].
Proof.
  unfold binary_sensor.update_and_control, binary_sensor._async_update_heating_demand.
  set (r := binary_sensor.update_attributes states self).
  destruct (binary_sensor.heater_task r) as [[t m]|] eqn:Htask.
  - intros Hok.
    destruct (recompute_and_dispatch_commute services states r t m) as [Hcomm _].
    unfold r in Hcomm at 2. rewrite update_attributes_idempotent in Hcomm.
    fold r in Hcomm. rewrite Hcomm, dispatch_keeps_heater_task, Htask.
    destruct (dispatch_settled services r t m Hok) as [Ht Hm].
    destruct (dispatch_spec services'
                (fst (binary_sensor._async_control_heater services r t m)) t m)
      as (Hcalls & _).
    cbv zeta in *. rewrite Hcalls, Ht, Hm. reflexivity.
  - intros _. cbn [fst]. unfold r. rewrite update_attributes_idempotent.
    fold r. rewrite Htask. reflexivity.
Qed.

(** TRV 1 heating at 18 for 21; services that always return. *)
Lemma second_pass_is_silent_witness :
  snd (binary_sensor.update_and_control samples.temperature_fails samples.two_trvs
         (fst (binary_sensor.update_and_control samples.all_good samples.two_trvs
                 (samples.sensor_of ["climate.trv1"; "climate.trv2"]%string))))
  = [].
Proof.
  apply (second_pass_is_silent samples.all_good samples.temperature_fails
           samples.two_trvs
           (samples.sensor_of ["climate.trv1"; "climate.trv2"]%string)).
  intros c _. reflexivity.
Defined.

(** X12: a recompute and its task make at most two outbound calls, each
    addressed to the configured heater entity; without a heater entity they
    make none and leave both last-sent attributes as they were. *)
Theorem calls_go_to_the_heater (services : Services) (states : States)
  (self : binary_sensor.BinarySensor) :
  let r := binary_sensor.update_and_control services states self in
  (length (snd r) <= 2)%nat
  /\ (forall c, In c (snd r) ->
        addressed_to (binary_sensor._heater_entity_id self) c
        /\ truthy (binary_sensor._heater_entity_id self) = true)
  /\ (truthy (binary_sensor._heater_entity_id self) = false ->
      snd r = []
      /\ binary_sensor._last_sent_target_temperature (fst r)
         = binary_sensor._last_sent_target_temperature self
      /\ binary_sensor._last_sent_hvac_mode (fst r)
         = binary_sensor._last_sent_hvac_mode self).
Proof.
  cbv zeta.
  unfold binary_sensor.update_and_control, binary_sensor._async_update_heating_demand.
  set (u := binary_sensor.update_attributes states self).
  assert (Hh : binary_sensor._heater_entity_id u = binary_sensor._heater_entity_id self)
    by reflexivity.
  destruct (binary_sensor.heater_task u) as [[t m]|] eqn:Htask.
  - assert (Htruthy : truthy (binary_sensor._heater_entity_id self) = true).
    { unfold binary_sensor.heater_task in Htask. rewrite Hh in Htask.
      destruct (truthy _); [reflexivity|discriminate]. }
    destruct (dispatch_spec services u t m) as (Hcalls & _).
    cbv zeta in Hcalls. rewrite Hcalls, Hh, Htruthy.
    split; [|split].
    + destruct (opt_num_neb _ t), (opt_str_neb _ m); cbn; lia.
    + intros c Hin. split; [|reflexivity].
      destruct (opt_num_neb _ t), (opt_str_neb _ m); cbn in Hin;
        intuition (subst; reflexivity).
    + discriminate.
  - cbn [fst snd]. split; [cbn; lia|]. split; [intros c []|].
    intros _. auto.
Qed.

(** ** Repeated dispatch *)

(** What one dispatch adds to the log of returned [set_temperature] calls. *)
Lemma dispatch_log_temperature (services : Services)
  (self : binary_sensor.BinarySensor) (t : Q) (m : string) :
  let r := binary_sensor._async_control_heater services self t m in
  let before := opt_num_neb (binary_sensor._last_sent_target_temperature self) t in
  let after := opt_num_neb (binary_sensor._last_sent_target_temperature (fst r)) t in
  let n := length (List.filter temperature_sent (map (fun c => (c, services c)) (snd r))) in
  (n = 0%nat /\ after = before) \/ (n = 1%nat /\ before = true /\ after = false).
Proof.
  cbv zeta.
  unfold binary_sensor._async_control_heater, binary_sensor.control_temperature,
    binary_sensor.control_hvac_mode.
  destruct (opt_num_neb _ t) eqn:Et;
    [destruct (services (set_temperature _ _)) eqn:E1|];
    cbn; (destruct (opt_str_neb _ m);
          [destruct (services (set_hvac_mode _ _)) eqn:E2|]);
    cbn; rewrite ?E1, ?E2, ?Et, ?opt_num_neb_same, ?Qeq_bool_refl; cbn; auto.
Qed.

Lemma dispatch_log_hvac_mode (services : Services)
  (self : binary_sensor.BinarySensor) (t : Q) (m : string) :
  let r := binary_sensor._async_control_heater services self t m in
  let before := opt_str_neb (binary_sensor._last_sent_hvac_mode self) m in
  let after := opt_str_neb (binary_sensor._last_sent_hvac_mode (fst r)) m in
  let n := length (List.filter hvac_mode_sent (map (fun c => (c, services c)) (snd r))) in
  (n = 0%nat /\ after = before) \/ (n = 1%nat /\ before = true /\ after = false).
Proof.
  cbv zeta.
  unfold binary_sensor._async_control_heater, binary_sensor.control_temperature,
    binary_sensor.control_hvac_mode.
  destruct (opt_num_neb _ t);
    [destruct (services (set_temperature _ _)) eqn:E1|];
    cbn; (destruct (opt_str_neb _ m) eqn:Em;
          [destruct (services (set_hvac_mode _ _)) eqn:E2|]);
    cbn; rewrite ?E1, ?E2, ?Em, ?opt_str_neb_same, ?String.eqb_refl; cbn; auto.
Qed.

(** X13: however often the same command is dispatched and whichever calls
    raise, at most one [set_temperature] call and at most one [set_hvac_mode]
    call return; none of a kind returns (none is even needed) when the
    commanded value is the one last sent. *)
Theorem at_most_one_successful_call (runs : list Services)
  (self : binary_sensor.BinarySensor) (t : Q) (m : string) :
  let log := repeat_dispatch runs self t m in
  (length (List.filter temperature_sent log)
   <= if opt_num_neb (binary_sensor._last_sent_target_temperature self) t
      then 1 else 0)%nat
  /\ (length (List.filter hvac_mode_sent log)
      <= if opt_str_neb (binary_sensor._last_sent_hvac_mode self) m
         then 1 else 0)%nat.
Proof.
  cbv zeta. revert self. induction runs as [|services rest IH]; intros self.
  - cbn. split; [destruct (opt_num_neb _ t)|destruct (opt_str_neb _ m)]; lia.
  - cbn [repeat_dispatch]. rewrite !List.filter_app, !length_app.
    destruct (IH (fst (binary_sensor._async_control_heater services self t m)))
      as [IHt IHm].
    destruct (dispatch_log_temperature services self t m)
      as [[-> <-]|(-> & -> & Ha)];
      destruct (dispatch_log_hvac_mode services self t m)
        as [[-> <-]|(-> & -> & Hb)];
      cbv zeta in *; rewrite ?Ha in IHt; rewrite ?Hb in IHm; split; lia.
Qed.

(** ** The state change listeners *)

Lemma opt_str_ne_false (a b : option string) : opt_str_ne a b = false <-> a = b.
Proof.
  destruct a as [x|], b as [y|]; cbn; try (split; congruence).
  rewrite negb_false_iff, String.eqb_eq. split; congruence.
Qed.

Lemma opt_num_ne_false (a b : option Q) : opt_num_ne a b = false <-> same_number a b.
Proof.
  destruct a as [x|], b as [y|]; cbn; try (split; (congruence || tauto)).
  rewrite negb_false_iff. apply Qeq_bool_iff.
Qed.

Lemma attributes_changed_false (old new : State) :
  binary_sensor.attributes_changed old new = false
  <-> hvac_action old = hvac_action new
      /\ same_number (current_temperature old) (current_temperature new)
      /\ same_number (temperature old) (temperature new).
Proof.
  unfold binary_sensor.attributes_changed.
  rewrite !orb_false_iff, opt_str_ne_false, !opt_num_ne_false. tauto.
Qed.

(** X14: the TRV listener recomputes and writes the state exactly on events
    that carry a new state and either no old state or an old state that
    differs from the new one in [hvac_action], [current_temperature] or
    [temperature]; every other event (a removal included) leaves the sensor
    untouched and creates no task.  The plain sensor's listener writes on
    exactly the same events. *)
Theorem trv_listener_criterion (states : States) (event : Event)
  (self : binary_sensor.BinarySensor) :
  let r := binary_sensor._async_trv_state_listener states event self in
  (snd r = true
   <-> exists new,
         new_state event = Some new
         /\ (old_state event = None
             \/ exists old,
                  old_state event = Some old
                  /\ ~ (hvac_action old = hvac_action new
                        /\ same_number (current_temperature old)
                             (current_temperature new)
                        /\ same_number (temperature old) (temperature new))))
  /\ (snd r = true ->
      fst r = binary_sensor._async_update_heating_demand states self)
  /\ (snd r = false -> fst r = (self, None))
  /\ (forall plain : sensor.Sensor,
        snd (sensor._async_trv_state_listener states event plain) = snd r).
Proof.
  cbv zeta.
  unfold binary_sensor._async_trv_state_listener, sensor._async_trv_state_listener.
  change sensor.attributes_changed with binary_sensor.attributes_changed.
  destruct (old_state event) as [old|], (new_state event) as [new|].
  - destruct (binary_sensor.attributes_changed old new) eqn:E; cbn [fst snd].
    + split; [|split; [reflexivity|split; [discriminate|reflexivity]]].
      split; [|reflexivity]. intros _. exists new. split; [reflexivity|].
      right. exists old. split; [reflexivity|]. intros H.
      apply attributes_changed_false in H. congruence.
    + split; [|split; [discriminate|split; reflexivity]].
      split; [discriminate|]. intros (n & [= <-] & [H|(o & [= <-] & H)]);
        [discriminate|].
      exfalso. apply H, attributes_changed_false, E.
  - cbn. split; [|split; [discriminate|split; reflexivity]].
    split; [discriminate|]. intros (n & H & _). discriminate.
  - cbn. split; [|split; [reflexivity|split; [discriminate|reflexivity]]].
    split; [|reflexivity]. intros _. exists new. auto.
  - cbn. split; [|split; [discriminate|split; reflexivity]].
    split; [discriminate|]. intros (n & H & _). discriminate.
Qed.

(** A removal event for TRV 1. *)
Lemma trv_listener_criterion_witness :
  fst (binary_sensor._async_trv_state_listener samples.two_trvs
         {| old_state := Some samples.trv_heat; new_state := None |}
         (samples.sensor_of ["climate.trv1"%string]))
  = (samples.sensor_of ["climate.trv1"%string], None).
Proof.
  apply (trv_listener_criterion samples.two_trvs
           {| old_state := Some samples.trv_heat; new_state := None |}
           (samples.sensor_of ["climate.trv1"%string])).
  reflexivity.
Defined.

(** X15: an event in which only the raw state (or the friendly name) of the
    TRV changed is ignored by the listener, although the raw state enters the
    demand rule.  With a TRV at 18 for 21 that goes from "off" to "heat", the
    sensor computed for "off" stays off after the event, while a recompute on
    the new states would turn it on. *)
Theorem raw_state_change_is_ignored :
  (forall (states : States) (event : Event) (self : binary_sensor.BinarySensor)
          (old new : State),
     old_state event = Some old -> new_state event = Some new ->
     hvac_action old = hvac_action new ->
     current_temperature old = current_temperature new ->
     temperature old = temperature new ->
     binary_sensor._async_trv_state_listener states event self = (self, None, false))
  /\ (let before : States := <["climate.trv1"%string := samples.trv_off]> ∅ in
      let self := fst (binary_sensor._async_update_heating_demand before
                         (samples.sensor_of ["climate.trv1"%string])) in
      let event := {| old_state := Some samples.trv_off;
                      new_state := Some samples.trv_heat |} in
      let r := binary_sensor._async_trv_state_listener samples.switched_on event self in
      samples.switched_on !! "climate.trv1"%string = new_state event
      /\ binary_sensor.is_on (fst (fst r)) = false
      /\ binary_sensor.is_on
           (fst (binary_sensor._async_update_heating_demand samples.switched_on self))
         = true).
Proof.
  split.
  - intros states event self old new Ho Hn Ha Hc Ht.
    unfold binary_sensor._async_trv_state_listener. rewrite Ho, Hn.
    assert (E : binary_sensor.attributes_changed old new = false).
    { apply attributes_changed_false. rewrite Ha, Hc, Ht.
      split; [reflexivity|].
      split; [destruct (current_temperature new)|destruct (temperature new)];
        cbn; auto using Qeq_refl. }
    rewrite E. reflexivity.
  - vm_compute. repeat split; reflexivity.
Qed.

(** The event "off" to "heat" of a TRV at 18 for 21. *)
Lemma raw_state_change_is_ignored_witness :
  binary_sensor._async_trv_state_listener samples.switched_on
    {| old_state := Some samples.trv_off; new_state := Some samples.trv_heat |}
    (samples.sensor_of ["climate.trv1"%string])
  = (samples.sensor_of ["climate.trv1"%string], None, false).
Proof.
  apply (proj1 raw_state_change_is_ignored samples.switched_on
           {| old_state := Some samples.trv_off; new_state := Some samples.trv_heat |}
           (samples.sensor_of ["climate.trv1"%string])
           samples.trv_off samples.trv_heat);
    reflexivity.
Defined.

(** ** The configuration helper *)

(** X16: the entity list helper on every input.  A list is returned
    unchanged.  A value that is neither a string nor a list raises
    [vol.Invalid], and nothing else does.  A string yields the JSON array it
    parses to; when [json.loads] raises [JSONDecodeError] or returns
    something that is no list, it yields the one-element list of the string
    itself.  Any other exception of [json.loads] escapes the helper, and that
    is the only way it ends otherwise than with a list or [vol.Invalid]. *)
Theorem validate_normalises (json_loads : string -> Loads) :
  (forall items, binary_sensor.validate json_loads (PList items) = Valid items)
  /\ (forall value, (exists msg, binary_sensor.validate json_loads value = Invalid msg)
                    <-> value = POther)
  /\ (forall s items,
        json_loads s = Parsed (PList items) ->
        binary_sensor.validate json_loads (PStr s) = Valid items)
  /\ (forall s,
        json_loads s = JSONDecodeError
        \/ (exists v, json_loads s = Parsed v /\ forall items, v <> PList items) ->
        binary_sensor.validate json_loads (PStr s) = Valid [PStr s])
  /\ (forall value,
        binary_sensor.validate json_loads value = Uncaught
        <-> exists s, value = PStr s /\ json_loads s = OtherError).
Proof.
  split; [reflexivity|]. split; [|split; [|split]].
  - intros value. split.
    + intros [msg H]. destruct value as [s|items|]; [|discriminate|reflexivity].
      cbn in H. destruct (json_loads s) as [[| |]| |]; discriminate.
    + intros ->. eexists. reflexivity.
  - intros s items H. cbn. rewrite H. reflexivity.
  - intros s [H|(v & H & Hv)]; cbn; rewrite H; [reflexivity|].
    destruct v as [s'|items|]; [reflexivity| |reflexivity].
    exfalso. exact (Hv items eq_refl).
  - intros value. split.
    + destruct value as [s|items|]; [|discriminate|discriminate].
      cbn. destruct (json_loads s) as [[| |]| |] eqn:E; try discriminate.
      intros _. exists s. auto.
    + intros (s & -> & H). cbn. rewrite H. reflexivity.
Qed.

(** A single entity id, which is no JSON, becomes a one-element list. *)
Lemma validate_normalises_witness :
  binary_sensor.validate samples.json_loads_sample (PStr "climate.trv1")
  = Valid [PStr "climate.trv1"].
Proof.
  destruct (validate_normalises samples.json_loads_sample) as (_ & _ & _ & H & _).
  apply H. left. reflexivity.
Defined.
